(** * Timeline pane: request coordination, cursors and the merged item list

    A shallow embedding of [TimelinePane] from
    [src/vs/workbench/contrib/timeline/browser/timelinePane.ts]: the fields
    the pane keeps ([_items], [_cursorsByProvider], [_pendingRequests],
    [_uri], [_message]) become one record that every method takes and
    returns; arrays are lists, [Map]s are [gmap]s, [Set]s are [gset]s,
    JavaScript integers are [Z], and an optional property is an [option].
    An entry [{ element }] of [_items] is kept as its [element]. *)

From stdpp Require Import gmap strings list sorting.
From Stdlib Require Import ZArith Lia.

(** ** Constants *)

Definition InitialPageSize : nat := 20.
Definition SubsequentPageSize : nat := 40.

(** ** Interfaces

    Each TypeScript interface is a record in a module of its name, so that
    [TreeElement.source], [Timeline.source] and [TimelineRequest.source]
    keep the property names of the source. *)

(** [TreeElement = TimelineItem | CommandItem].  The two are duck typed in
    the source ([CommandItem] declares [id], [source] as [undefined]); one
    record with optional properties covers both.  [themeIcon?: { id }] is
    kept as the optional icon id. *)
Module TreeElement.
Record t := mk {
  handle : string;
  timestamp : Z;
  label : string;
  id : option string;
  source : option string;
  themeIcon : option string
}.
End TreeElement.

(** A [URI] object.  [ref] is the identity of the object: [===] and [!==]
    on objects compare references, not contents. *)
Module URI.
Record t := mk { ref : nat; scheme : string; fsPath : string }.
End URI.

(** [{ before: any; after?: any }]: cursors are opaque tokens. *)
Module Cursors.
Record t := mk { before : option string; after : option string }.
End Cursors.

(** [interface TimelineCursors]. *)
Module TimelineCursors.
Record t := mk {
  startCursors : option Cursors.t;
  endCursors : option Cursors.t;
  more : bool
}.
End TimelineCursors.

(** [Timeline.paging]: [{ cursors; more?: boolean }]. *)
Module Paging.
Record t := mk { cursors : Cursors.t; more : option bool }.
End Paging.

(** [interface Timeline]: one page of one source. *)
Module Timeline.
Record t := mk {
  source : string;
  items : list TreeElement.t;
  paging : option Paging.t
}.
End Timeline.

(** The [limit] of a request is a count or, on a reset that re-reads up to
    the newest known position, a cursor. *)
Inductive Limit :=
  | LimitCount (n : Z)
  | LimitCursor (c : string).

(** [interface TimelineOptions]. *)
Module TimelineOptions.
Record t := mk {
  cursor : option string;
  before : option bool;
  limit : option Limit
}.
End TimelineOptions.

(** [interface TimelineRequest].  [tokenSource] is the address of the
    [CancellationTokenSource] in the pane's store of token sources; the
    [result] promise is not a field: its outcome is handed to
    [handleRequest] when it settles. *)
Module TimelineRequest.
Record t := mk {
  options : TimelineOptions.t;
  source : string;
  tokenSource : nat;
  uri : URI.t
}.
End TimelineRequest.

(** A [CancellationTokenSource] with the listeners registered through
    [onCancellationRequested].  Every listener of the source is
    [() => this._pendingRequests.delete(source)], so a listener is the
    [source] it closes over. *)
Module TokenSource.
Record t := mk { isCancellationRequested : bool; listeners : list string }.
End TokenSource.

(** How the awaited [request.result] settles. *)
Inductive Outcome :=
  | Resolved (timeline : option Timeline.t)
  | Rejected.

(** Options of [String.prototype.localeCompare]. *)
Record CollatorOptions := { numeric : bool; sensitivity : string }.

(** ** The pane

    The fields of [TimelinePane] that the request engine reads and writes.
    [_tree] is the list last handed to [_tree.setChildren];
    [refreshDebouncedArmed] says that the 500 ms debounce of
    [refreshDebounced] is running; [timelineSources] is what
    [timelineService.getSources()] returns; [tokenSources] is the store of
    token sources, addressed by position; [awaiting] lists the
    [handleRequest] calls suspended at their [await]. *)
Record TimelinePane := mkPane {
  _excludedSources : gset string;
  _cursorsByProvider : gmap string TimelineCursors.t;
  _items : list TreeElement.t;
  _loadingMessageTimer : option URI.t;
  _pendingRequests : gmap string TimelineRequest.t;
  _uri : option URI.t;
  _message : option string;
  _tree : option (list TreeElement.t);
  refreshDebouncedArmed : bool;
  timelineSources : list string;
  tokenSources : list TokenSource.t;
  awaiting : list TimelineRequest.t
}.

Definition set_cursorsByProvider (v : gmap string TimelineCursors.t)
    (p : TimelinePane) : TimelinePane :=
  mkPane (_excludedSources p) v (_items p) (_loadingMessageTimer p)
    (_pendingRequests p) (_uri p) (_message p) (_tree p)
    (refreshDebouncedArmed p) (timelineSources p) (tokenSources p) (awaiting p).

Definition set_items (v : list TreeElement.t) (p : TimelinePane) : TimelinePane :=
  mkPane (_excludedSources p) (_cursorsByProvider p) v (_loadingMessageTimer p)
    (_pendingRequests p) (_uri p) (_message p) (_tree p)
    (refreshDebouncedArmed p) (timelineSources p) (tokenSources p) (awaiting p).

Definition set_loadingMessageTimer (v : option URI.t) (p : TimelinePane) : TimelinePane :=
  mkPane (_excludedSources p) (_cursorsByProvider p) (_items p) v
    (_pendingRequests p) (_uri p) (_message p) (_tree p)
    (refreshDebouncedArmed p) (timelineSources p) (tokenSources p) (awaiting p).

Definition set_pendingRequests (v : gmap string TimelineRequest.t)
    (p : TimelinePane) : TimelinePane :=
  mkPane (_excludedSources p) (_cursorsByProvider p) (_items p)
    (_loadingMessageTimer p) v (_uri p) (_message p) (_tree p)
    (refreshDebouncedArmed p) (timelineSources p) (tokenSources p) (awaiting p).

Definition set_message (v : option string) (p : TimelinePane) : TimelinePane :=
  mkPane (_excludedSources p) (_cursorsByProvider p) (_items p)
    (_loadingMessageTimer p) (_pendingRequests p) (_uri p) v (_tree p)
    (refreshDebouncedArmed p) (timelineSources p) (tokenSources p) (awaiting p).

Definition set_tree (v : option (list TreeElement.t)) (p : TimelinePane) : TimelinePane :=
  mkPane (_excludedSources p) (_cursorsByProvider p) (_items p)
    (_loadingMessageTimer p) (_pendingRequests p) (_uri p) (_message p) v
    (refreshDebouncedArmed p) (timelineSources p) (tokenSources p) (awaiting p).

Definition set_refreshDebouncedArmed (v : bool) (p : TimelinePane) : TimelinePane :=
  mkPane (_excludedSources p) (_cursorsByProvider p) (_items p)
    (_loadingMessageTimer p) (_pendingRequests p) (_uri p) (_message p) (_tree p)
    v (timelineSources p) (tokenSources p) (awaiting p).

Definition set_tokenSources (v : list TokenSource.t) (p : TimelinePane) : TimelinePane :=
  mkPane (_excludedSources p) (_cursorsByProvider p) (_items p)
    (_loadingMessageTimer p) (_pendingRequests p) (_uri p) (_message p) (_tree p)
    (refreshDebouncedArmed p) (timelineSources p) v (awaiting p).

Definition set_awaiting (v : list TimelineRequest.t) (p : TimelinePane) : TimelinePane :=
  mkPane (_excludedSources p) (_cursorsByProvider p) (_items p)
    (_loadingMessageTimer p) (_pendingRequests p) (_uri p) (_message p) (_tree p)
    (refreshDebouncedArmed p) (timelineSources p) (tokenSources p) v.

Definition set_uri (v : option URI.t) (p : TimelinePane) : TimelinePane :=
  mkPane (_excludedSources p) (_cursorsByProvider p) (_items p)
    (_loadingMessageTimer p) (_pendingRequests p) v (_message p) (_tree p)
    (refreshDebouncedArmed p) (timelineSources p) (tokenSources p) (awaiting p).

(** ** Small helpers of the source *)

(** [isLoadMoreCommandItem(item)]: [item?.handle === 'vscode-command:loadMore']. *)
Definition isLoadMoreCommandItem (item : option TreeElement.t) : bool :=
  match item with
  | Some e => bool_decide (TreeElement.handle e = "vscode-command:loadMore")
  | None => false
  end.

(** The element pushed at the tail when more pages exist:
    [{ handle: 'vscode-command:loadMore', label: 'Load more', timestamp: 0 }]. *)
Definition loadMoreItem : TreeElement.t :=
  TreeElement.mk "vscode-command:loadMore" 0 "Load more" None None None.

(** [item.themeIcon = icon]. *)
Definition setThemeIcon (icon : option string) (e : TreeElement.t) : TreeElement.t :=
  TreeElement.mk (TreeElement.handle e) (TreeElement.timestamp e)
    (TreeElement.label e) (TreeElement.id e) (TreeElement.source e) icon.

(** Truthiness of an optional opaque cursor: [undefined] and the empty
    string are falsy. *)
Definition truthyCursor (c : option string) : bool :=
  match c with
  | Some s => negb (bool_decide (s = ""))
  | None => false
  end.

(** Truthiness of an optional boolean. *)
Definition truthy (b : option bool) : bool := default false b.

(** ** Sorting: [Array.prototype.sort] with a comparator

    The engine's sort is stable; it is written here as an insertion sort
    that places an element before the first one it does not follow. *)

Fixpoint insertBy {A} (cmp : A → A → Z) (x : A) (l : list A) : list A :=
  match l with
  | [] => [x]
  | y :: l' => if decide (cmp x y ≤ 0)%Z then x :: l else y :: insertBy cmp x l'
  end.

Definition arraySort {A} (cmp : A → A → Z) (l : list A) : list A :=
  foldr (insertBy cmp) [] l.

Section Pane.

(** [a.localeCompare(b, undefined, opts)], the platform's collation. *)
Variable localeCompare : string → string → CollatorOptions → Z.

(** The comparator of [sortItems].  [x || y] is [x] unless [x] is zero. *)
Definition compareItems (a b : TreeElement.t) : Z :=
  let d := (TreeElement.timestamp b - TreeElement.timestamp a)%Z in
  if decide (d ≠ 0%Z) then d
  else match TreeElement.source a, TreeElement.source b with
       | None, None => 0%Z
       | None, Some _ => 1%Z
       | Some _, None => (-1)%Z
       | Some sa, Some sb =>
           localeCompare sb sa {| numeric := true; sensitivity := "base" |}
       end.

(** [sortItems()], on the list. *)
Definition sortItems (l : list TreeElement.t) : list TreeElement.t :=
  arraySort compareItems l.

(** ** mergeItems *)

(** The two sets built from the incoming page: [ids] holds the [id] of
    every item that has one, [timestamps] the [timestamp] of every item
    that has none.  A JavaScript [Set] holds any value, [undefined]
    included, so [ids] is a set of optional strings. *)
Fixpoint incomingIdentities (items : list TreeElement.t)
    (acc : gset (option string) * gset Z) : gset (option string) * gset Z :=
  match items with
  | [] => acc
  | item :: rest =>
      incomingIdentities rest
        (match TreeElement.id item with
         | None => (acc.1, acc.2 ∪ {[TreeElement.timestamp item]})
         | Some i => (acc.1 ∪ {[Some i]}, acc.2)
         end)
  end.

(** [item.timestamp === undefined]: [timestamp] is declared [number] on
    both alternatives of [TreeElement], so the test is never true. *)
Definition timestampUndefined (item : TreeElement.t) : bool := false.

(** The test of the dedup loop, as written:
    [(item.id === undefined && ids.has(item.id)) ||
     (item.timestamp === undefined && timestamps.has(item.timestamp))]. *)
Definition isDuplicate (ids : gset (option string)) (timestamps : gset Z)
    (item : TreeElement.t) : bool :=
  (bool_decide (TreeElement.id item = None)
     && bool_decide (TreeElement.id item ∈ ids))
  || (timestampUndefined item
     && bool_decide (TreeElement.timestamp item ∈ timestamps)).

(** [while (i--) { item = this._items[i].element; if (...) this._items.splice(i, 1); }].
    The first argument is the value of [i] when the loop test runs.  The
    index is always in range ([i] starts at most at the length and only
    entries at or above it are removed); out of range the source would
    throw, here the loop stops. *)
Fixpoint removeDuplicates (i : nat) (ids : gset (option string))
    (timestamps : gset Z) (l : list TreeElement.t) : list TreeElement.t :=
  match i with
  | O => l
  | S j =>
      match l !! j with
      | Some item =>
          removeDuplicates j ids timestamps
            (if isDuplicate ids timestamps item then delete j l else l)
      | None => l
      end
  end.

(** [mergeItems(source, items, options)]: the returned flag and the new
    [_items]. *)
Definition mergeItems (source : string) (items : option (list TreeElement.t))
    (options : TimelineOptions.t) (l : list TreeElement.t)
    : bool * list TreeElement.t :=
  match items with
  | None | Some [] => (false, l)
  | Some its =>
      let l' :=
        if truthy (TimelineOptions.before options) then
          let sets := incomingIdentities its (∅, ∅) in
          let i := Nat.min SubsequentPageSize (length l) in
          its ++ removeDuplicates i sets.1 sets.2 l
        else l ++ its in
      (true, sortItems l')
  end.

(** ** replaceItems *)

(** [this._items.some(item => item.element.source === source)]. *)
Definition someFromSource (source : string) (l : list TreeElement.t) : bool :=
  existsb (λ e, bool_decide (TreeElement.source e = Some source)) l.

(** [this._items.filter(item => item.element.source !== source)]. *)
Definition withoutSource (source : string) (l : list TreeElement.t)
    : list TreeElement.t :=
  filter (λ e, TreeElement.source e ≠ Some source) l.

(** [replaceItems(source, items?)]: the returned flag and the new [_items]. *)
Definition replaceItems (source : string) (items : option (list TreeElement.t))
    (l : list TreeElement.t) : bool * list TreeElement.t :=
  match items with
  | Some ((_ :: _) as its) => (true, sortItems (withoutSource source l ++ its))
  | _ =>
      if negb (bool_decide (length l = 0%nat)) && someFromSource source l
      then (true, withoutSource source l)
      else (false, l)
  end.

(** ** Cancellation *)

(** Modelled from the spec: [CancellationTokenSource] of
    [vs/base/common/cancellation], which is not part of the sources at
    hand.  The spec says that cancellation is token based and cooperative:
    triggering a token only records the triggered state, which every
    completion re-checks.  [dispose(true)] triggers the token once; the
    listeners registered on it run at that moment, and each of them is
    [() => this._pendingRequests.delete(source)]. *)
Definition cancelTokenSource (t : nat) (p : TimelinePane) : TimelinePane :=
  match tokenSources p !! t with
  | Some ts =>
      if TokenSource.isCancellationRequested ts then p
      else
        set_pendingRequests
          (foldr delete (_pendingRequests p) (TokenSource.listeners ts))
          (set_tokenSources (<[t := TokenSource.mk true []]> (tokenSources p)) p)
  | None => p
  end.

(** [new CancellationTokenSource()]: the new address and the pane with the
    source in its store. *)
Definition newCancellationTokenSource (p : TimelinePane) : nat * TimelinePane :=
  (length (tokenSources p),
   set_tokenSources (tokenSources p ++ [TokenSource.mk false []]) p).

(** [tokenSource.token.onCancellationRequested(() => this._pendingRequests.delete(source))]. *)
Definition onCancellationRequested (t : nat) (source : string)
    (p : TimelinePane) : TimelinePane :=
  set_tokenSources
    (alter (λ ts, TokenSource.mk (TokenSource.isCancellationRequested ts)
                    (TokenSource.listeners ts ++ [source]))
       t (tokenSources p)) p.

(** [request.tokenSource.token.isCancellationRequested]. *)
Definition isCancellationRequested (request : TimelineRequest.t)
    (p : TimelinePane) : bool :=
  match tokenSources p !! TimelineRequest.tokenSource request with
  | Some ts => TokenSource.isCancellationRequested ts
  | None => false
  end.

(** Modelled from the spec: [timelineService.getTimeline] of
    [vs/workbench/contrib/timeline/common/timelineService], which is not
    part of the sources at hand.  The spec describes the request handle as
    carrying the source id, the target resource at issue time, the
    cancellation token and the promise of the result; the service has no
    handle to give for a source it has no provider for. *)
Definition getTimeline (source : string) (uri : URI.t)
    (options : TimelineOptions.t) (tokenSource : nat) (p : TimelinePane)
    : option TimelineRequest.t :=
  if bool_decide (source ∈ timelineSources p)
  then Some (TimelineRequest.mk options source tokenSource uri)
  else None.

(** ** refresh *)

Definition noTimelineInfo : string := "No timeline information was provided.".
Definition editorCannotProvideTimeline : string :=
  "The active editor cannot provide timeline information.".

(** [refresh()]. *)
Definition refresh (p : TimelinePane) : TimelinePane :=
  let p := set_loadingMessageTimer None p in
  let p :=
    set_message
      (if bool_decide (length (_items p) = 0%nat) then Some noTimelineInfo else None)
      p in
  set_tree (Some (_items p)) p.

(** [refreshDebounced()]: [@debounce(500)] starts (or restarts) the delay;
    [refresh] runs when it elapses. *)
Definition refreshDebounced (p : TimelinePane) : TimelinePane :=
  set_refreshDebouncedArmed true p.

Definition debounceElapsed (p : TimelinePane) : TimelinePane :=
  if refreshDebouncedArmed p then refresh (set_refreshDebouncedArmed false p) else p.

(** ** handleRequest *)

(** Lines 363-383 of [handleRequest]: the cursor bookkeeping done for a
    page with [paging].  [timeline.source] is declared [string], so
    [timeline.source ?? source] is [timeline.source]; the object read from
    the map is updated in place, which is an update of the entry. *)
Definition recordPage (source : string) (timeline : Timeline.t)
    (options : TimelineOptions.t) (m : gmap string TimelineCursors.t)
    : gmap string TimelineCursors.t :=
  match Timeline.paging timeline with
  | None => m
  | Some paging =>
      match m !! Timeline.source timeline with
      | None =>
          <[Timeline.source timeline :=
              TimelineCursors.mk (Some (Paging.cursors paging)) None
                (default false (Paging.more paging))]> m
      | Some cursors =>
          let '(startCursors, endCursors) :=
            if truthy (TimelineOptions.before options) then
              (Some (Paging.cursors paging),
               match TimelineCursors.endCursors cursors with
               | None => TimelineCursors.startCursors cursors
               | Some e => Some e
               end)
            else
              (match TimelineCursors.startCursors cursors with
               | None => Some (Paging.cursors paging)
               | Some s => Some s
               end,
               Some (Paging.cursors paging)) in
          <[Timeline.source timeline :=
              TimelineCursors.mk startCursors endCursors
                (default true (Paging.more paging))]> m
      end
  end.

(** [Iterator.some(this._cursorsByProvider.values(), cursors => cursors.more)]. *)
Definition someCursorsMore (m : gmap string TimelineCursors.t) : bool :=
  existsb (λ kv, TimelineCursors.more kv.2) (map_to_list m).

(** [timeline.paging?.more], as a condition. *)
Definition pagingMore (timeline : Timeline.t) : bool :=
  match Timeline.paging timeline with
  | Some paging => truthy (Paging.more paging)
  | None => false
  end.

(** Lines 407-430 of [handleRequest]: the load-more element at the tail,
    once no request is pending and the list is not empty. *)
Definition updateLoadMore (timeline : Timeline.t) (p : TimelinePane) : TimelinePane :=
  if bool_decide (size (_pendingRequests p) = 0%nat)
     && negb (bool_decide (length (_items p) = 0%nat))
  then
    let lastIndex := (length (_items p) - 1)%nat in
    let lastItem := _items p !! lastIndex in
    if pagingMore timeline || someCursorsMore (_cursorsByProvider p) then
      if isLoadMoreCommandItem lastItem
      then set_items (alter (setThemeIcon None) lastIndex (_items p)) p
      else set_items (_items p ++ [loadMoreItem]) p
    else
      if isLoadMoreCommandItem lastItem
      then set_items (delete lastIndex (_items p)) p
      else p
  else p.

(** [request.uri !== this._uri]: the two are unequal unless [_uri] is the
    very object the request carries. *)
Definition uriDiffers (request : TimelineRequest.t) (p : TimelinePane) : bool :=
  match _uri p with
  | Some u => negb (bool_decide (URI.ref (TimelineRequest.uri request) = URI.ref u))
  | None => true
  end.

Global Instance Limit_eq_dec : EqDecision Limit.
Proof. solve_decision. Defined.
Global Instance URI_eq_dec : EqDecision URI.t.
Proof. solve_decision. Defined.
Global Instance TimelineOptions_eq_dec : EqDecision TimelineOptions.t.
Proof. solve_decision. Defined.
Global Instance TimelineRequest_eq_dec : EqDecision TimelineRequest.t.
Proof. solve_decision. Defined.

(** One suspended call for [request] leaves [awaiting] when it resumes. *)
Fixpoint resume (request : TimelineRequest.t) (l : list TimelineRequest.t)
    : list TimelineRequest.t :=
  match l with
  | [] => []
  | r :: l' => if decide (r = request) then l' else r :: resume request l'
  end.

(** [handleRequest(request)] up to its [await]: the call is suspended until
    [request.result] settles. *)
Definition handleRequest_await (request : TimelineRequest.t)
    (p : TimelinePane) : TimelinePane :=
  set_awaiting (awaiting p ++ [request]) p.

(** Lines 391-396 of [handleRequest]: a page asked for with a cursor is
    merged, any other page replaces what its source had. *)
Definition applyPage (request : TimelineRequest.t) (items : list TreeElement.t)
    (l : list TreeElement.t) : bool * list TreeElement.t :=
  if truthyCursor (TimelineOptions.cursor (TimelineRequest.options request))
  then mergeItems (TimelineRequest.source request) (Some items)
         (TimelineRequest.options request) l
  else replaceItems (TimelineRequest.source request) (Some items) l.

(** [handleRequest(request)] from its [await] on, given how
    [request.result] settled.  A rejection leaves through the [finally]
    block and runs nothing after it. *)
Definition handleRequest (request : TimelineRequest.t) (outcome : Outcome)
    (p : TimelinePane) : TimelinePane :=
  let p := set_awaiting (resume request (awaiting p)) p in
  let p :=
    set_pendingRequests
      (delete (TimelineRequest.source request) (_pendingRequests p)) p in
  match outcome with
  | Rejected => p
  | Resolved None => p
  | Resolved (Some timeline) =>
      if isCancellationRequested request p || uriDiffers request p then p
      else
        let source := TimelineRequest.source request in
        let p :=
          set_cursorsByProvider
            (recordPage source timeline (TimelineRequest.options request)
               (_cursorsByProvider p)) p in
        let items := Timeline.items timeline in
        let alreadyHadItems := negb (bool_decide (length (_items p) = 0%nat)) in
        let '(changed, l) := applyPage request items (_items p) in
        let p := set_items l p in
        if negb changed then
          if bool_decide (length (_items p) = 0%nat)
             && bool_decide (size (_pendingRequests p) = 0%nat)
          then refresh p
          else p
        else
          let p := updateLoadMore timeline p in
          if alreadyHadItems && negb (bool_decide (size (_pendingRequests p) = 0%nat))
          then refreshDebounced p
          else refresh p
  end.

(** ** loadTimeline *)

(** [options.limit === 0 ? undefined : base ?? options.limit ?? defaultPageSize],
    where [base] is the newest known [after] cursor on a reset and absent
    otherwise. *)
Definition requestLimit (base : option string) (options : TimelineOptions.t)
    (defaultPageSize : nat) : option Limit :=
  match TimelineOptions.limit options with
  | Some (LimitCount 0) => None
  | given =>
      match base with
      | Some c => Some (LimitCursor c)
      | None =>
          match given with
          | Some l => Some l
          | None => Some (LimitCount (Z.of_nat defaultPageSize))
          end
      end
  end.

(** The cursor of an incremental request:
    [options.before ? cursors?.startCursors?.before
                    : (cursors?.endCursors ?? cursors?.startCursors)?.after],
    which a [cursor] given in [options] overrides through the spread. *)
Definition requestCursor (cursors : option TimelineCursors.t)
    (options : TimelineOptions.t) : option string :=
  match TimelineOptions.cursor options with
  | Some c => Some c
  | None =>
      if truthy (TimelineOptions.before options) then
        (cursors ≫= TimelineCursors.startCursors) ≫= Cursors.before
      else
        (cursors ≫= (λ c, match TimelineCursors.endCursors c with
                           | Some e => Some e
                           | None => TimelineCursors.startCursors c
                           end)) ≫= Cursors.after
  end.

(** The body of the [for (const source of filteredSources)] loop, lines
    287-338. *)
Definition loadTimeline_source (reset : bool) (options : TimelineOptions.t)
    (defaultPageSize : nat) (uri : URI.t) (source : string)
    (p : TimelinePane) : TimelinePane :=
  let request := _pendingRequests p !! source in
  let cursors := _cursorsByProvider p !! source in
  if negb reset then
    if negb (default false (TimelineCursors.more <$> cursors)) then p
    else
      let reusingToken := bool_decide (is_Some request) in
      let '(t, p) :=
        match request with
        | Some r => (TimelineRequest.tokenSource r, p)
        | None => newCancellationTokenSource p
        end in
      let opts :=
        TimelineOptions.mk (requestCursor cursors options)
          (TimelineOptions.before options)
          (requestLimit None options defaultPageSize) in
      match getTimeline source uri opts t p with
      | None => p
      | Some request =>
          let p := set_pendingRequests (<[source := request]> (_pendingRequests p)) p in
          let p := if reusingToken then p else onCancellationRequested t source p in
          handleRequest_await request p
      end
  else
    let p :=
      match request with
      | Some r => cancelTokenSource (TimelineRequest.tokenSource r) p
      | None => p
      end in
    let '(t, p) := newCancellationTokenSource p in
    let opts :=
      TimelineOptions.mk (TimelineOptions.cursor options)
        (TimelineOptions.before options)
        (requestLimit
           ((cursors ≫= TimelineCursors.endCursors) ≫= Cursors.after)
           options defaultPageSize) in
    match getTimeline source uri opts t p with
    | None => p
    | Some request =>
        let p := set_pendingRequests (<[source := request]> (_pendingRequests p)) p in
        let p := onCancellationRequested t source p in
        handleRequest_await request p
    end.

(** [for (const { tokenSource } of this._pendingRequests.values()) tokenSource.dispose(true)]:
    the iteration is live, an entry deleted by a listener before its turn
    is not visited. *)
Definition cancelPending (p : TimelinePane) : TimelinePane :=
  foldl
    (λ p k, match _pendingRequests p !! k with
            | Some r => cancelTokenSource (TimelineRequest.tokenSource r) p
            | None => p
            end)
    p (map_to_list (_pendingRequests p)).*1.

(** The schemes [loadTimeline] answers with a fixed message. *)
Definition cannotProvideTimeline (u : URI.t) : bool :=
  bool_decide (URI.scheme u = "vscode-settings")
  || bool_decide (URI.scheme u = "webview-panel")
  || bool_decide (URI.scheme u = "walkThrough").

(** [loadTimeline(reset, sources?, options = {})].  The selection and focus
    of the tree widget (lines 279-284) are not part of the state kept
    here. *)
Definition loadTimeline (reset : bool) (sources : option (list string))
    (options : TimelineOptions.t) (p : TimelinePane) : TimelinePane :=
  let defaultPageSize := if reset then InitialPageSize else SubsequentPageSize in
  let '(p, returned) :=
    match sources with
    | Some _ => (p, false)
    | None =>
        let p :=
          if reset then
            let p := set_items [] p in
            let p := set_cursorsByProvider ∅ p in
            let p := set_loadingMessageTimer None p in
            let p := cancelPending p in
            set_pendingRequests ∅ p
          else p in
        match _uri p with
        | Some u =>
            if cannotProvideTimeline u
            then (set_tree None (set_message (Some editorCannotProvideTimeline) p), true)
            else ((if reset then set_loadingMessageTimer (Some u) p else p), false)
        | None => (p, false)
        end
    end in
  if returned then p
  else
    match _uri p with
    | None => p
    | Some uri =>
        let filteredSources :=
          filter (λ s, s ∉ _excludedSources p) (default (timelineSources p) sources) in
        if bool_decide (length filteredSources = 0%nat) then
          if reset then refresh p else p
        else
          let lastIndex := (length (_items p) - 1)%nat in
          let p :=
            if isLoadMoreCommandItem (_items p !! lastIndex)
            then set_items (alter (setThemeIcon (Some "sync~spin")) lastIndex (_items p)) p
            else p in
          foldl (λ p source, loadTimeline_source reset options defaultPageSize uri source p)
            p filteredSources
    end.

(** [onActiveEditorChanged()] from line 157 on, that is once the resource
    [uri] of the active editor was found to differ from [_uri]. *)
Definition activeEditorChanged (uri : option URI.t) (p : TimelinePane)
    : TimelinePane :=
  loadTimeline true None (TimelineOptions.mk None None None) (set_uri uri p).

(** [onProvidersChanged(e)]. *)
Definition onProvidersChanged (removed added : option (list string))
    (p : TimelinePane) : TimelinePane :=
  let p :=
    match removed with
    | Some rs => foldl (λ p source, set_items (replaceItems source None (_items p)).2 p) p rs
    | None => p
    end in
  match added with
  | Some a => loadTimeline true (Some a) (TimelineOptions.mk None None None) p
  | None => p
  end.

End Pane.

(** ** The other handlers of the pane *)

(** [isTimelineItem(item)]: [!item?.handle.startsWith('vscode-command:') ?? false].
    The negation is applied before [??], so the result is never
    [undefined] and the [false] is never used: for [undefined] the answer
    is [!undefined], which is [true]. *)
Definition isTimelineItem (item : option TreeElement.t) : bool :=
  match item with
  | Some e => negb (String.prefix "vscode-command:" (TreeElement.handle e))
  | None => true
  end.

Definition set_excludedSources (v : gset string) (p : TimelinePane) : TimelinePane :=
  mkPane v (_cursorsByProvider p) (_items p)
    (_loadingMessageTimer p) (_pendingRequests p) (_uri p) (_message p) (_tree p)
    (refreshDebouncedArmed p) (timelineSources p) (tokenSources p) (awaiting p).

(** [interface TimelineChangeEvent]: [{ id; uri?; reset? }]; the handler
    reads [id] as optional. *)
Module TimelineChangeEvent.
Record t := mk { id : option string; uri : option URI.t; reset : option bool }.
End TimelineChangeEvent.

(** [onReset()]. *)
Definition onReset (p : TimelinePane) : TimelinePane :=
  loadTimeline true None (TimelineOptions.mk None None None) p.

(** [onConfigurationChanged(e)]: [affects] is
    [e.affectsConfiguration('timeline.excludeSources')] and [excludeSources]
    the value of the setting. *)
Definition onConfigurationChanged (affects : bool) (excludeSources : list string)
    (p : TimelinePane) : TimelinePane :=
  if negb affects then p
  else
    loadTimeline true None (TimelineOptions.mk None None None)
      (set_excludedSources (list_to_set excludeSources) p).

(** Lines 604-610: the load-more element [item] of the selection is
    opened.  A theme icon on it is the signal that a load is running. *)
Definition loadMoreOpened (item : TreeElement.t) (p : TimelinePane) : TimelinePane :=
  if bool_decide (TreeElement.themeIcon item ≠ None) then p
  else loadTimeline false None (TimelineOptions.mk None None None) p.

Section Resources.

(** [uri.toString(true)] of [vs/base/common/uri]. *)
Variable uriToString : URI.t → string.

(** [uri?.scheme === 'file' || uri?.scheme === 'git']. *)
Definition fileOrGit (uri : option URI.t) : bool :=
  match uri with
  | Some u => bool_decide (URI.scheme u = "file") || bool_decide (URI.scheme u = "git")
  | None => false
  end.

(** [onActiveEditorChanged()], where [uri] is the resource of the active
    editor, if any.  The renderer's copy of the uri is not part of the
    state kept here. *)
Definition onActiveEditorChanged (uri : option URI.t) (p : TimelinePane)
    : TimelinePane :=
  if (bool_decide (uriToString <$> uri = uriToString <$> _uri p)
        && bool_decide (uri ≠ None))
     || (bool_decide (URI.fsPath <$> uri = URI.fsPath <$> _uri p)
           && fileOrGit uri && fileOrGit (_uri p))
  then p
  else activeEditorChanged uri p.

(** [onTimelineChanged(e)]. *)
Definition onTimelineChanged (e : TimelineChangeEvent.t) (p : TimelinePane)
    : TimelinePane :=
  if match TimelineChangeEvent.uri e with
     | None => true
     | Some u => negb (bool_decide (Some (uriToString u) = uriToString <$> _uri p))
     end
  then
    loadTimeline (default false (TimelineChangeEvent.reset e))
      (match TimelineChangeEvent.id e with
       | None => None
       | Some i => Some [i]
       end)
      (TimelineOptions.mk None
         (Some (negb (truthy (TimelineChangeEvent.reset e)))) None)
      p
  else p.

End Resources.

(** ** What the claims speak about *)

(** The order [sortItems] sorts by: [a] may stand before [b]. *)
Definition itemsLe (localeCompare : string → string → CollatorOptions → Z)
    (a b : TreeElement.t) : Prop :=
  (compareItems localeCompare a b ≤ 0)%Z.

(** The list is sorted: every entry may stand before every later one. *)
Definition itemsSorted (localeCompare : string → string → CollatorOptions → Z)
    (l : list TreeElement.t) : Prop :=
  StronglySorted (itemsLe localeCompare) l.

(** No two entries of the list have the same [handle]. *)
Definition handlesUnique (l : list TreeElement.t) : Prop :=
  NoDup (TreeElement.handle <$> l).

(** The options [sortItems] passes to [localeCompare]. *)
Definition sortCollation : CollatorOptions :=
  {| numeric := true; sensitivity := "base" |}.

(** ** A collation to run the model with

    [localeCompare] belongs to the platform.  Concrete runs of the model
    use this one: code units compared in order after folding ASCII upper
    case to lower case. *)

Definition foldCase (c : Ascii.ascii) : nat :=
  let n := Ascii.nat_of_ascii c in
  if (65 <=? n)%nat && (n <=? 90)%nat then (n + 32)%nat else n.

Fixpoint compareCodes (a b : list nat) : Z :=
  match a, b with
  | [], [] => 0%Z
  | [], _ :: _ => (-1)%Z
  | _ :: _, [] => 1%Z
  | x :: a', y :: b' =>
      if (x <? y)%nat then (-1)%Z
      else if (y <? x)%nat then 1%Z
      else compareCodes a' b'
  end.

Definition baseCompare (a b : string) (_ : CollatorOptions) : Z :=
  compareCodes (foldCase <$> String.list_ascii_of_string a)
    (foldCase <$> String.list_ascii_of_string b).

(** ** Sample data *)

Definition fileA : URI.t := URI.mk 1 "file" "/work/a.ts".
Definition fileB : URI.t := URI.mk 2 "file" "/work/b.ts".

Definition noOptions : TimelineOptions.t := TimelineOptions.mk None None None.
Definition beforeOptions : TimelineOptions.t :=
  TimelineOptions.mk (Some "c1") (Some true) None.

Definition commit1 : TreeElement.t :=
  TreeElement.mk "1" 500 "first commit" (Some "c1") (Some "git") None.
Definition commit2 : TreeElement.t :=
  TreeElement.mk "2" 400 "second commit" (Some "c2") (Some "git") None.

(** An entry of another source whose handle is that of [commit1]: a
    handle is unique within its source only. *)
Definition saved1 : TreeElement.t :=
  TreeElement.mk "1" 450 "file saved" None (Some "history") None.

(** Two entries dated before the epoch. *)
Definition old1 : TreeElement.t :=
  TreeElement.mk "7" (-3) "imported" None (Some "history") None.
Definition old2 : TreeElement.t :=
  TreeElement.mk "9" (-5) "ancient commit" (Some "c9") (Some "git") None.

(** The load-more element while a fetch is running. *)
Definition busyLoadMore : TreeElement.t :=
  setThemeIcon (Some "sync~spin") loadMoreItem.

(** A pane that shows [fileA] and knows the sources [git] and [history]. *)
Definition emptyPane : TimelinePane :=
  mkPane ∅ ∅ [] None ∅ (Some fileA) None None false ["git"; "history"] [] [].

(** *** A run that ends with the load-more element out of place

    [fileA] is opened: one request per source.  The page of [history]
    arrives first, then the page of [git], which says that more exists;
    last, the provider of [history] is removed. *)

Definition gitRequest : TimelineRequest.t :=
  TimelineRequest.mk (TimelineOptions.mk None None (Some (LimitCount 20)))
    "git" 0 fileA.
Definition historyRequest : TimelineRequest.t :=
  TimelineRequest.mk (TimelineOptions.mk None None (Some (LimitCount 20)))
    "history" 1 fileA.

Definition historyPage : Timeline.t := Timeline.mk "history" [old1] None.
Definition gitPage : Timeline.t :=
  Timeline.mk "git" [old2]
    (Some (Paging.mk (Cursors.mk (Some "c9") (Some "c9")) (Some true))).

Definition opened : TimelinePane := loadTimeline true None noOptions emptyPane.
Definition historyArrived : TimelinePane :=
  handleRequest baseCompare historyRequest (Resolved (Some historyPage)) opened.
Definition gitArrived : TimelinePane :=
  handleRequest baseCompare gitRequest (Resolved (Some gitPage)) historyArrived.
Definition historyRemoved : TimelinePane :=
  onProvidersChanged baseCompare (Some ["history"]) None gitArrived.

(** *** The run goes on: more is asked for

    The load-more element is activated ([loadTimeline(false)]): [git],
    whose cursors say that more exists, is asked for the page after
    [c9]. *)

Definition gitCursors : TimelineCursors.t :=
  TimelineCursors.mk (Some (Cursors.mk (Some "c9") (Some "c9"))) None true.

Definition moreRequest : TimelineRequest.t :=
  TimelineRequest.mk (TimelineOptions.mk (Some "c9") None (Some (LimitCount 40)))
    "git" 2 fileA.

Definition loadingMore : TimelinePane := loadTimeline false None noOptions gitArrived.

(** The source answers with an empty last page. *)
Definition emptyLastPage : Timeline.t :=
  Timeline.mk "git" []
    (Some (Paging.mk (Cursors.mk (Some "c9") (Some "c9")) (Some false))).

(** The source answers with an empty page and says that more exists. *)
Definition emptyPageMore : Timeline.t :=
  Timeline.mk "git" []
    (Some (Paging.mk (Cursors.mk (Some "c9") (Some "c9")) (Some true))).

(** The source answers with one more entry, the last. *)
Definition old3 : TreeElement.t :=
  TreeElement.mk "10" (-7) "first commit ever" (Some "c10") (Some "git") None.
Definition lastPage : Timeline.t :=
  Timeline.mk "git" [old3]
    (Some (Paging.mk (Cursors.mk (Some "c10") (Some "c10")) (Some false))).

(** While [moreRequest] is awaited, [git] signals a change of its timeline
    ([onTimelineChanged] with [id = 'git'] and no [reset]):
    [loadTimeline(false, ['git'], { before: true })]. *)
Definition changeOptions : TimelineOptions.t :=
  TimelineOptions.mk None (Some true) None.
Definition changeRequest : TimelineRequest.t :=
  TimelineRequest.mk (TimelineOptions.mk (Some "c9") (Some true) (Some (LimitCount 40)))
    "git" 2 fileA.
Definition changedWhileLoading : TimelinePane :=
  loadTimeline false (Some ["git"]) changeOptions loadingMore.

(** While the first two requests are awaited, the editor shows [fileB]. *)
Definition switched : TimelinePane := activeEditorChanged (Some fileB) opened.

(** ** What the further properties speak about *)

(** The token source at address [t] was triggered. *)
Definition triggered (p : TimelinePane) (t : nat) : Prop :=
  ∃ ts, tokenSources p !! t = Some ts
        ∧ TokenSource.isCancellationRequested ts = true.

(** The same on the store. *)
Definition triggeredIn (l : list TokenSource.t) (t : nat) : Prop :=
  ∃ ts, l !! t = Some ts ∧ TokenSource.isCancellationRequested ts = true.

(** The options of the request a turn of the loop builds for [source]. *)
Definition issuedOptions (reset : bool) (options : TimelineOptions.t)
    (defaultPageSize : nat) (cursors : option TimelineCursors.t)
    : TimelineOptions.t :=
  if reset then
    TimelineOptions.mk (TimelineOptions.cursor options)
      (TimelineOptions.before options)
      (requestLimit ((cursors ≫= TimelineCursors.endCursors) ≫= Cursors.after)
         options defaultPageSize)
  else
    TimelineOptions.mk (requestCursor cursors options)
      (TimelineOptions.before options)
      (requestLimit None options defaultPageSize).

(** The pending requests are those of a reset for [u]: each is kept under
    its source, is for [u], is suspended, and has a token source of its
    own that was not triggered and whose one listener is for its source. *)
Definition freshlyIssued (u : URI.t) (p : TimelinePane) : Prop :=
  (∀ k r, _pendingRequests p !! k = Some r →
     TimelineRequest.source r = k
     ∧ TimelineRequest.uri r = u
     ∧ r ∈ awaiting p
     ∧ tokenSources p !! TimelineRequest.tokenSource r
       = Some (TokenSource.mk false [k]))
  ∧ (∀ k k' r r', _pendingRequests p !! k = Some r →
       _pendingRequests p !! k' = Some r' →
       TimelineRequest.tokenSource r = TimelineRequest.tokenSource r' → k = k').

(** The token source of every pending request is in the store and its
    listeners are for the source the request is kept under. *)
Definition listenersOwnSource (p : TimelinePane) : Prop :=
  ∀ k r, _pendingRequests p !! k = Some r →
    ∃ ts, tokenSources p !! TimelineRequest.tokenSource r = Some ts
          ∧ ∀ s, s ∈ TokenSource.listeners ts → s = k.


(* ===================================================================== *)
(** * Properties *)

(** ** The sort *)

Section SortFacts.
Context {A : Type} (cmp : A → A → Z).

Local Abbreviation le := (λ a b : A, (cmp a b ≤ 0)%Z).

Lemma insertBy_Permutation (x : A) (l : list A) : insertBy cmp x l ≡ₚ x :: l.
Proof.
  induction l as [|y l IH]; simpl; [done|].
  case_decide; [done|].
  rewrite IH. apply Permutation_swap.
Qed.

Lemma arraySort_Permutation (l : list A) : arraySort cmp l ≡ₚ l.
Proof.
  induction l as [|x l IH]; simpl; [done|].
  rewrite insertBy_Permutation. by f_equiv.
Qed.

Hypothesis cmp_total : ∀ a b, (cmp a b ≤ 0)%Z ∨ (cmp b a ≤ 0)%Z.
Hypothesis cmp_trans : ∀ a b c, (cmp a b ≤ 0)%Z → (cmp b c ≤ 0)%Z → (cmp a c ≤ 0)%Z.

Lemma insertBy_StronglySorted (x : A) (l : list A) :
  StronglySorted le l → StronglySorted le (insertBy cmp x l).
Proof.
  induction 1 as [|y l Hs IH Hall]; simpl.
  - repeat constructor.
  - case_decide as Hxy.
    + constructor; [by constructor|].
      constructor; [done|].
      eapply Forall_impl; [exact Hall|]. intros z Hyz. by eapply cmp_trans.
    + constructor; [exact IH|].
      rewrite insertBy_Permutation. constructor; [|done].
      destruct (cmp_total x y); [contradiction|done].
Qed.

Lemma arraySort_StronglySorted (l : list A) : StronglySorted le (arraySort cmp l).
Proof.
  induction l as [|x l IH]; simpl; [constructor|].
  by apply insertBy_StronglySorted.
Qed.

Lemma filter_StronglySorted (P : A → Prop) `{!∀ x, Decision (P x)} (l : list A) :
  StronglySorted le l → StronglySorted le (filter P l).
Proof.
  induction 1 as [|y l Hs IH Hall]; [constructor|].
  rewrite filter_cons. case_decide; [|done].
  constructor; [done|].
  apply Forall_forall. intros z [_ Hz]%list_elem_of_filter.
  by eapply Forall_forall in Hall.
Qed.

End SortFacts.

(** ** The comparator of [sortItems] is an order when the collation is *)

Section Comparator.
Variable localeCompare : string → string → CollatorOptions → Z.
Hypothesis collation_total : ∀ a b,
  (localeCompare a b sortCollation ≤ 0)%Z ∨ (localeCompare b a sortCollation ≤ 0)%Z.
Hypothesis collation_trans : ∀ a b c,
  (localeCompare a b sortCollation ≤ 0)%Z →
  (localeCompare b c sortCollation ≤ 0)%Z →
  (localeCompare a c sortCollation ≤ 0)%Z.

Lemma compareItems_total (a b : TreeElement.t) :
  (compareItems localeCompare a b ≤ 0)%Z ∨ (compareItems localeCompare b a ≤ 0)%Z.
Proof.
  unfold compareItems.
  destruct a as [ha ta la ia sa ica], b as [hb tb lb ib sb icb]; simpl.
  repeat case_decide; try lia.
  destruct sa as [sa|], sb as [sb|]; try lia.
  destruct (collation_total sa sb); [right|left]; done.
Qed.

Lemma compareItems_trans (a b c : TreeElement.t) :
  (compareItems localeCompare a b ≤ 0)%Z →
  (compareItems localeCompare b c ≤ 0)%Z →
  (compareItems localeCompare a c ≤ 0)%Z.
Proof.
  unfold compareItems.
  destruct a as [ha ta la ia sa ica], b as [hb tb lb ib sb icb],
    c as [hc tc lc ic sc icc]; simpl.
  repeat case_decide; try lia.
  destruct sa as [sa|], sb as [sb|], sc as [sc|]; try lia.
  intros Hab Hbc. by eapply collation_trans.
Qed.

Lemma sortItems_sorted (l : list TreeElement.t) :
  itemsSorted localeCompare (sortItems localeCompare l).
Proof.
  apply arraySort_StronglySorted.
  - apply compareItems_total.
  - apply compareItems_trans.
Qed.

End Comparator.

Lemma sortItems_Permutation localeCompare (l : list TreeElement.t) :
  sortItems localeCompare l ≡ₚ l.
Proof. apply arraySort_Permutation. Qed.

(** ** The collation of the concrete runs is an order *)

Lemma compareCodes_total (a b : list nat) :
  (compareCodes a b ≤ 0)%Z ∨ (compareCodes b a ≤ 0)%Z.
Proof.
  revert b. induction a as [|x a IH]; intros [|y b]; simpl; try lia.
  destruct (Nat.ltb_spec x y), (Nat.ltb_spec y x); try lia. apply IH.
Qed.

Lemma compareCodes_trans (a b c : list nat) :
  (compareCodes a b ≤ 0)%Z → (compareCodes b c ≤ 0)%Z → (compareCodes a c ≤ 0)%Z.
Proof.
  revert b c. induction a as [|x a IH]; intros [|y b] [|z c]; simpl; try lia.
  destruct (Nat.ltb_spec x y), (Nat.ltb_spec y x), (Nat.ltb_spec y z),
    (Nat.ltb_spec z y), (Nat.ltb_spec x z), (Nat.ltb_spec z x); try lia.
  apply IH.
Qed.

Lemma baseCompare_total (a b : string) :
  (baseCompare a b sortCollation ≤ 0)%Z ∨ (baseCompare b a sortCollation ≤ 0)%Z.
Proof. apply compareCodes_total. Qed.

Lemma baseCompare_trans (a b c : string) :
  (baseCompare a b sortCollation ≤ 0)%Z →
  (baseCompare b c sortCollation ≤ 0)%Z →
  (baseCompare a c sortCollation ≤ 0)%Z.
Proof. apply compareCodes_trans. Qed.

(** ** The dedup loop of [mergeItems] *)

Lemma incomingIdentities_defined (items : list TreeElement.t)
    (acc : gset (option string) * gset Z) :
  None ∉ acc.1 → None ∉ (incomingIdentities items acc).1.
Proof.
  revert acc. induction items as [|item items IH]; intros acc Hacc; simpl; [done|].
  apply IH. destruct (TreeElement.id item); simpl; [|done].
  rewrite elem_of_union, elem_of_singleton. by intros [?|?].
Qed.

Lemma isDuplicate_false (ids : gset (option string)) (timestamps : gset Z)
    (item : TreeElement.t) :
  None ∉ ids → isDuplicate ids timestamps item = false.
Proof.
  intros Hids. unfold isDuplicate, timestampUndefined.
  destruct (TreeElement.id item) as [i|]; simpl; [done|].
  by rewrite bool_decide_eq_false_2.
Qed.

Lemma removeDuplicates_keeps_all (i : nat) (ids : gset (option string))
    (timestamps : gset Z) (l : list TreeElement.t) :
  None ∉ ids → removeDuplicates i ids timestamps l = l.
Proof.
  intros Hids. revert l. induction i as [|j IH]; intros l; simpl; [done|].
  destruct (l !! j) as [item|]; [|done].
  rewrite isDuplicate_false by done. apply IH.
Qed.

(** What an older-direction merge computes: the page in front of the whole
    list, sorted. *)
Lemma mergeItems_before localeCompare (source : string)
    (item : TreeElement.t) (items : list TreeElement.t)
    (options : TimelineOptions.t) (l : list TreeElement.t) :
  truthy (TimelineOptions.before options) = true →
  mergeItems localeCompare source (Some (item :: items)) options l
  = (true, sortItems localeCompare ((item :: items) ++ l)).
Proof.
  intros Hb. unfold mergeItems. rewrite Hb.
  rewrite removeDuplicates_keeps_all; [done|].
  apply incomingIdentities_defined. simpl. apply not_elem_of_empty.
Qed.

Lemma mergeItems_Permutation localeCompare (source : string)
    (items : option (list TreeElement.t)) (options : TimelineOptions.t)
    (l : list TreeElement.t) :
  (mergeItems localeCompare source items options l).2 ≡ₚ default [] items ++ l.
Proof.
  destruct items as [[|item items]|]; try done.
  destruct (truthy (TimelineOptions.before options)) eqn:Hb.
  - rewrite mergeItems_before by done. apply sortItems_Permutation.
  - unfold mergeItems. rewrite Hb. simpl.
    rewrite sortItems_Permutation. apply Permutation_app_comm.
Qed.

Lemma someFromSource_spec (source : string) (l : list TreeElement.t) :
  someFromSource source l = true ↔ ∃ e, e ∈ l ∧ TreeElement.source e = Some source.
Proof.
  unfold someFromSource. rewrite existsb_exists. split.
  - intros (e & He & Hs). exists e. split; [by apply list_elem_of_In|].
    by apply bool_decide_eq_true in Hs.
  - intros (e & He & Hs). exists e. split; [by apply list_elem_of_In|].
    by apply bool_decide_eq_true.
Qed.

Lemma withoutSource_unchanged (source : string) (l : list TreeElement.t) :
  someFromSource source l = false → withoutSource source l = l.
Proof.
  unfold someFromSource, withoutSource.
  induction l as [|e l IH]; simpl; [done|].
  intros [He Hl]%orb_false_elim. rewrite filter_cons.
  apply bool_decide_eq_false in He. rewrite decide_True by done.
  by rewrite IH.
Qed.

Lemma replaceItems_nothing_incoming localeCompare (source : string)
    (items : option (list TreeElement.t)) (l : list TreeElement.t) :
  default [] items = [] →
  replaceItems localeCompare source items l
  = (someFromSource source l, withoutSource source l).
Proof.
  intros Hnone.
  assert ((if negb (bool_decide (length l = 0%nat)) && someFromSource source l
           then (true, withoutSource source l) else (false, l))
          = (someFromSource source l, withoutSource source l)) as Hempty.
  { destruct (someFromSource source l) eqn:Hs.
    - by destruct l.
    - rewrite andb_false_r. by rewrite withoutSource_unchanged. }
  destruct items as [[|item items]|]; simpl in *; done.
Qed.

Lemma replaceItems_Permutation localeCompare (source : string)
    (items : option (list TreeElement.t)) (l : list TreeElement.t) :
  (replaceItems localeCompare source items l).2
  ≡ₚ withoutSource source l ++ default [] items.
Proof.
  destruct (default [] items) as [|item rest] eqn:Hitems.
  - rewrite replaceItems_nothing_incoming by done. by rewrite app_nil_r.
  - destruct items as [[|? ?]|]; simplify_eq/=. apply sortItems_Permutation.
Qed.

(** ** mergeItems and replaceItems on the list *)

(** C10: a merge whose incoming list is undefined or empty returns
    [false] and hands back the very list it was given: nothing is removed,
    nothing is inserted and the list is not sorted again. *)
Theorem mergeItems_nothing_incoming localeCompare (source : string)
    (options : TimelineOptions.t) (l : list TreeElement.t) :
  mergeItems localeCompare source None options l = (false, l)
  ∧ mergeItems localeCompare source (Some []) options l = (false, l).
Proof. split; reflexivity. Qed.

(** C8: [replaceItems(source, items)] keeps of the old list exactly the
    entries whose source is not [source] and adds the new items to them;
    it returns [true] exactly when the new items are not empty or the old
    list had an entry of [source]; with no new items the result is the old
    list without the entries of [source], so these vanish. *)
Theorem replaceItems_removes_source_and_reports_change localeCompare
    (source : string) (items : option (list TreeElement.t))
    (l : list TreeElement.t) :
  let r := replaceItems localeCompare source items l in
  (r.1 = true ↔
     default [] items ≠ [] ∨ ∃ e, e ∈ l ∧ TreeElement.source e = Some source)
  ∧ r.2 ≡ₚ filter (λ e, TreeElement.source e ≠ Some source) l ++ default [] items
  ∧ (default [] items = [] →
       r.2 = filter (λ e, TreeElement.source e ≠ Some source) l
       ∧ ∀ e, e ∈ r.2 → TreeElement.source e ≠ Some source).
Proof.
  simpl. fold (withoutSource source l). split; [|split].
  - destruct (default [] items) as [|item rest] eqn:Hitems.
    + rewrite replaceItems_nothing_incoming by done. simpl.
      rewrite someFromSource_spec. split; [by right|]. by intros [?|?].
    + destruct items as [[|? ?]|]; simplify_eq/=. split; [by left|done].
  - apply replaceItems_Permutation.
  - intros Hnone. rewrite replaceItems_nothing_incoming by done. simpl.
    split; [done|]. by intros e [? _]%list_elem_of_filter.
Qed.

(** C1 (the code does not do what the claim says): an older-direction
    page that brings [commit1] again is merged into a list that already
    has [commit1]; the dedup loop removes nothing and both instances are
    in the list afterwards. *)
Theorem mergeItems_before_keeps_duplicate localeCompare :
  mergeItems localeCompare "git" (Some [commit1]) beforeOptions [commit1; commit2]
  = (true, [commit1; commit1; commit2]).
Proof.
  rewrite mergeItems_before by reflexivity.
  unfold sortItems, arraySort, compareItems. simpl.
  repeat (case_decide; try lia); reflexivity.
Qed.

(** ** Order of the list *)

(** The order of [sortItems], spelled out: the later timestamp first; on
    equal timestamps an entry without source after an entry with one, and
    two entries with sources in the reverse of the collation's order. *)
Lemma itemsLe_spec localeCompare (a b : TreeElement.t) :
  itemsLe localeCompare a b ↔
    (TreeElement.timestamp b < TreeElement.timestamp a)%Z
    ∨ (TreeElement.timestamp a = TreeElement.timestamp b
       ∧ match TreeElement.source a, TreeElement.source b with
         | None, None => True
         | None, Some _ => False
         | Some _, None => True
         | Some sa, Some sb => (localeCompare sb sa sortCollation ≤ 0)%Z
         end).
Proof.
  unfold itemsLe, compareItems. fold sortCollation.
  case_decide.
  - lia.
  - destruct (TreeElement.source a), (TreeElement.source b); split; try lia;
      intros; try (right; split; [lia|done]); intuition lia.
Qed.

Section Order.
Variable localeCompare : string → string → CollatorOptions → Z.
Hypothesis collation_total : ∀ a b,
  (localeCompare a b sortCollation ≤ 0)%Z ∨ (localeCompare b a sortCollation ≤ 0)%Z.
Hypothesis collation_trans : ∀ a b c,
  (localeCompare a b sortCollation ≤ 0)%Z →
  (localeCompare b c sortCollation ≤ 0)%Z →
  (localeCompare a c sortCollation ≤ 0)%Z.

(** C5 (amended): a merge or a replace with a non-empty incoming list
    leaves the list sorted by timestamp descending, ties broken as the
    claim says (no source after a source, two sources in the reverse of
    the collation's order); with an empty or undefined incoming list
    neither operation sorts, and the list is sorted afterwards if it was
    sorted before. *)
Theorem merge_replace_sorted (source : string)
    (items : option (list TreeElement.t)) (options : TimelineOptions.t)
    (l : list TreeElement.t) :
  default [] items ≠ [] ∨ itemsSorted localeCompare l →
  itemsSorted localeCompare (mergeItems localeCompare source items options l).2
  ∧ itemsSorted localeCompare (replaceItems localeCompare source items l).2
  ∧ ∀ a b, itemsLe localeCompare a b ↔
      (TreeElement.timestamp b < TreeElement.timestamp a)%Z
      ∨ (TreeElement.timestamp a = TreeElement.timestamp b
         ∧ match TreeElement.source a, TreeElement.source b with
           | None, None => True
           | None, Some _ => False
           | Some _, None => True
           | Some sa, Some sb => (localeCompare sb sa sortCollation ≤ 0)%Z
           end).
Proof.
  intros Hpre. split; [|split]; [| |apply itemsLe_spec].
  - destruct items as [[|item items]|]; simpl in *.
    + by destruct Hpre.
    + by apply sortItems_sorted.
    + by destruct Hpre.
  - destruct (default [] items) as [|item rest] eqn:Hitems.
    + rewrite replaceItems_nothing_incoming by done. simpl.
      apply filter_StronglySorted. by destruct Hpre.
    + destruct items as [[|? ?]|]; simplify_eq/=. by apply sortItems_sorted.
Qed.

End Order.

(** The incoming list [commit2] is not empty: merged into or replacing in
    [commit1], the result is sorted. *)
Lemma merge_replace_sorted_witness :
  itemsSorted baseCompare
    (mergeItems baseCompare "git" (Some [commit2]) noOptions [commit1]).2
  ∧ itemsSorted baseCompare
      (replaceItems baseCompare "git" (Some [commit2]) [commit1]).2.
Proof.
  pose proof (merge_replace_sorted baseCompare baseCompare_total baseCompare_trans
                "git" (Some [commit2]) noOptions [commit1]) as H.
  destruct H as (Hm & Hr & _).
  - left. simpl. discriminate.
  - split; [exact Hm | exact Hr].
Defined.

(** C5 as stated fails: in the run above the list is
    [old1; old2; loadMoreItem] after the page of [git]; replacing the
    entries of [history] by nothing returns [old2; loadMoreItem], where
    [old2] (timestamp -5) stands before the load-more element
    (timestamp 0). *)
Lemma replaceItems_leaves_unsorted :
  _items gitArrived = [old1; old2; loadMoreItem]
  ∧ replaceItems baseCompare "history" None (_items gitArrived)
    = (true, [old2; loadMoreItem])
  ∧ _items historyRemoved = [old2; loadMoreItem]
  ∧ ¬ itemsSorted baseCompare
        (replaceItems baseCompare "history" None (_items gitArrived)).2.
Proof.
  assert (_items gitArrived = [old1; old2; loadMoreItem]) as Hrun
    by (vm_compute; reflexivity).
  split; [exact Hrun|]. rewrite Hrun.
  split; [vm_compute; reflexivity|].
  split; [vm_compute; reflexivity|].
  intros Hs. change (StronglySorted (itemsLe baseCompare) [old2; loadMoreItem]) in Hs.
  apply StronglySorted_inv in Hs as [_ Hall].
  apply Forall_cons in Hall as [Hle _].
  vm_compute in Hle. by apply Hle.
Qed.

(** ** Handles *)

(** C6 (amended): neither operation checks handles.  A merge leaves the
    handles pairwise distinct when those of the incoming items and of the
    list together are; a replace does when those of the incoming items and
    of the entries of the other sources together are. *)
Theorem merge_replace_handles_unique localeCompare (source : string)
    (items : option (list TreeElement.t)) (options : TimelineOptions.t)
    (l : list TreeElement.t) :
  (handlesUnique (default [] items ++ l) →
   handlesUnique (mergeItems localeCompare source items options l).2)
  ∧ (handlesUnique (filter (λ e, TreeElement.source e ≠ Some source) l
                     ++ default [] items) →
     handlesUnique (replaceItems localeCompare source items l).2).
Proof.
  unfold handlesUnique. split; intros Hu.
  - by rewrite mergeItems_Permutation.
  - by rewrite replaceItems_Permutation.
Qed.

(** A fresh page of [git] replaces the entries of [git]: [commit1] comes
    again under its handle, next to an entry of [history]. *)
Lemma merge_replace_handles_unique_witness :
  handlesUnique (mergeItems baseCompare "git" (Some [commit2]) noOptions [commit1]).2
  ∧ handlesUnique
      (replaceItems baseCompare "git" (Some [commit1; commit2]) [commit1; old1]).2.
Proof.
  split.
  - apply (merge_replace_handles_unique baseCompare "git" (Some [commit2])
             noOptions [commit1]).
    unfold handlesUnique. vm_compute. apply (bool_decide_unpack _). vm_compute. exact I.
  - apply (merge_replace_handles_unique baseCompare "git" (Some [commit1; commit2])
             noOptions [commit1; old1]).
    unfold handlesUnique. apply (bool_decide_unpack _). vm_compute. exact I.
Defined.

(** C6 as stated fails: the list [commit1] has one handle; the page
    [saved1] of [history], whose handle is that of [commit1], replaces the
    (absent) entries of [history], and the list has the handle twice. *)
Lemma replaceItems_duplicates_handle :
  handlesUnique [commit1]
  ∧ replaceItems baseCompare "history" (Some [saved1]) [commit1]
    = (true, [commit1; saved1])
  ∧ ¬ handlesUnique (replaceItems baseCompare "history" (Some [saved1]) [commit1]).2.
Proof.
  split; [|split].
  - unfold handlesUnique. apply (bool_decide_unpack _). vm_compute. exact I.
  - vm_compute. reflexivity.
  - unfold handlesUnique. apply (bool_decide_eq_false_1 _). vm_compute. reflexivity.
Qed.

(** ** Cursors *)

(** C9: what recording a page with [paging] does to the cursors kept under
    the page's source.  The first page sets [startCursors] to the page's
    cursors and [more] to the page's flag, [false] if absent.  A later
    page in the before direction fills an unset [endCursors] from the old
    [startCursors] and sets [startCursors] to the page's cursors; a later
    page in the other direction fills an unset [startCursors] and sets
    [endCursors] to the page's cursors; both overwrite [more] with the
    page's flag, [true] if absent.  The cursors of other sources stay. *)
Theorem recordPage_cursors (source : string) (timeline : Timeline.t)
    (options : TimelineOptions.t) (m : gmap string TimelineCursors.t)
    (paging : Paging.t) :
  Timeline.paging timeline = Some paging →
  let k := Timeline.source timeline in
  let m' := recordPage source timeline options m in
  (m !! k = None →
     m' !! k = Some (TimelineCursors.mk (Some (Paging.cursors paging)) None
                       (default false (Paging.more paging))))
  ∧ (∀ c, m !! k = Some c → TimelineOptions.before options = Some true →
       m' !! k = Some (TimelineCursors.mk
                         (Some (Paging.cursors paging))
                         (match TimelineCursors.endCursors c with
                          | None => TimelineCursors.startCursors c
                          | Some e => Some e
                          end)
                         (default true (Paging.more paging))))
  ∧ (∀ c, m !! k = Some c → TimelineOptions.before options ≠ Some true →
       m' !! k = Some (TimelineCursors.mk
                         (match TimelineCursors.startCursors c with
                          | None => Some (Paging.cursors paging)
                          | Some s => Some s
                          end)
                         (Some (Paging.cursors paging))
                         (default true (Paging.more paging))))
  ∧ (∀ k', k' ≠ k → m' !! k' = m !! k').
Proof.
  intros Hpaging k m'. subst k m'. unfold recordPage. rewrite Hpaging.
  split; [|split; [|split]].
  - intros ->. by rewrite lookup_insert_eq.
  - intros c -> ->. simpl. by rewrite lookup_insert_eq.
  - intros c -> Hb.
    assert (truthy (TimelineOptions.before options) = false) as ->.
    { by destruct (TimelineOptions.before options) as [[]|]. }
    by rewrite lookup_insert_eq.
  - intros k' Hk'.
    destruct (m !! Timeline.source timeline) as [c|].
    + destruct (truthy _); by rewrite lookup_insert_ne.
    + by rewrite lookup_insert_ne.
Qed.

(** The first page of [git] in the run: no cursors were kept for [git]. *)
Lemma recordPage_cursors_witness :
  recordPage "git" gitPage noOptions ∅ !! "git"
  = Some (TimelineCursors.mk (Some (Cursors.mk (Some "c9") (Some "c9"))) None true).
Proof.
  apply (recordPage_cursors "git" gitPage noOptions ∅
           (Paging.mk (Cursors.mk (Some "c9") (Some "c9")) (Some true))).
  - reflexivity.
  - reflexivity.
Defined.

(** ** Completions *)

(** The completions that stop right after the [finally] block. *)
Lemma handleRequest_returns_early localeCompare (request : TimelineRequest.t)
    (outcome : Outcome) (p : TimelinePane) :
  outcome = Rejected ∨ outcome = Resolved None
  ∨ isCancellationRequested request p = true ∨ uriDiffers request p = true →
  handleRequest localeCompare request outcome p
  = set_pendingRequests
      (delete (TimelineRequest.source request) (_pendingRequests p))
      (set_awaiting (resume request (awaiting p)) p).
Proof.
  intros Hcase. unfold handleRequest.
  destruct outcome as [[timeline|]|]; try done. cbv zeta.
  change (isCancellationRequested request _)
    with (isCancellationRequested request p).
  change (uriDiffers request _) with (uriDiffers request p).
  assert (isCancellationRequested request p || uriDiffers request p = true) as ->;
    [|done].
  destruct Hcase as [?|[?|[->| ->]]]; try done.
  apply orb_true_r.
Qed.

(** C4: a completion whose token was triggered, or whose resource is not
    the one the pane shows any more, changes neither the merged list nor
    the cursors nor the message, however the request settled. *)
Theorem handleRequest_stale_discarded localeCompare
    (request : TimelineRequest.t) (outcome : Outcome) (p : TimelinePane) :
  isCancellationRequested request p = true ∨ uriDiffers request p = true →
  let p' := handleRequest localeCompare request outcome p in
  _items p' = _items p
  ∧ _cursorsByProvider p' = _cursorsByProvider p
  ∧ _message p' = _message p.
Proof.
  intros Hstale. simpl.
  rewrite handleRequest_returns_early by (destruct Hstale; auto).
  done.
Qed.

(** The page of [git] asked for [fileA] arrives after the editor went to
    [fileB]: its token was triggered and its resource is not shown. *)
Lemma handleRequest_stale_discarded_witness :
  let p' := handleRequest baseCompare gitRequest (Resolved (Some gitPage)) switched in
  _items p' = _items switched
  ∧ _cursorsByProvider p' = _cursorsByProvider switched
  ∧ _message p' = _message switched.
Proof.
  apply (handleRequest_stale_discarded baseCompare gitRequest
           (Resolved (Some gitPage)) switched).
  left. vm_compute. reflexivity.
Defined.

(** C2 (the code does not do what the claim says): while more is loaded
    in the run, the cursors of [git] are [gitCursors]; the request
    resolves to [undefined], and the cursors of [git] are still there
    afterwards.  (A rejected request leaves them as well.) *)
Theorem handleRequest_undefined_keeps_cursors :
  _pendingRequests loadingMore !! "git" = Some moreRequest
  ∧ _cursorsByProvider loadingMore !! "git" = Some gitCursors
  ∧ _cursorsByProvider
      (handleRequest baseCompare moreRequest (Resolved None) loadingMore) !! "git"
    = Some gitCursors
  ∧ _cursorsByProvider
      (handleRequest baseCompare moreRequest Rejected loadingMore) !! "git"
    = Some gitCursors.
Proof.
  assert (_cursorsByProvider loadingMore !! "git" = Some gitCursors) as Hc
    by (vm_compute; reflexivity).
  split; [vm_compute; reflexivity|]. split; [exact Hc|].
  split; (rewrite handleRequest_returns_early by auto); exact Hc.
Qed.

(** ** The load-more element *)

Lemma someCursorsMore_spec (m : gmap string TimelineCursors.t) :
  someCursorsMore m = true ↔
  ∃ k c, m !! k = Some c ∧ TimelineCursors.more c = true.
Proof.
  unfold someCursorsMore. rewrite existsb_exists. split.
  - intros ([k c] & Hin & Hmore). exists k, c. split; [|done].
    by apply elem_of_map_to_list, list_elem_of_In.
  - intros (k & c & Hkc & Hmore). exists (k, c). split; [|done].
    by apply list_elem_of_In, elem_of_map_to_list.
Qed.

Lemma someCursorsMore_false (m : gmap string TimelineCursors.t) :
  someCursorsMore m = false ↔
  ∀ k c, m !! k = Some c → TimelineCursors.more c = false.
Proof.
  rewrite <- not_true_iff_false, someCursorsMore_spec. split.
  - intros Hno k c Hkc. apply not_true_iff_false. intros Hmore. apply Hno. eauto.
  - intros Hall (k & c & Hkc & Hmore). rewrite (Hall k c Hkc) in Hmore. done.
Qed.

(** A page that says that more exists has recorded it in the cursors. *)
Lemma pagingMore_recorded (source : string) (timeline : Timeline.t)
    (options : TimelineOptions.t) (m : gmap string TimelineCursors.t) :
  pagingMore timeline = true →
  someCursorsMore (recordPage source timeline options m) = true.
Proof.
  unfold pagingMore, recordPage. destruct (Timeline.paging timeline) as [pg|]; [|done].
  intros Hmore. apply someCursorsMore_spec. exists (Timeline.source timeline).
  destruct (Paging.more pg) as [[]|]; try done.
  destruct (m !! Timeline.source timeline) as [c|].
  - destruct (truthy (TimelineOptions.before options)); eexists;
      (split; [apply lookup_insert_eq|done]).
  - eexists. split; [apply lookup_insert_eq|done].
Qed.

(** [updateLoadMore] writes [_items] only. *)
Lemma updateLoadMore_frame (timeline : Timeline.t) (p : TimelinePane) :
  _cursorsByProvider (updateLoadMore timeline p) = _cursorsByProvider p
  ∧ _pendingRequests (updateLoadMore timeline p) = _pendingRequests p.
Proof.
  unfold updateLoadMore.
  destruct (_ && _); [|done].
  destruct (_ || _); destruct (isLoadMoreCommandItem _); done.
Qed.

(** A completion that is not stale and whose page changed the list. *)
Lemma handleRequest_changed_eq localeCompare (request : TimelineRequest.t)
    (timeline : Timeline.t) (p : TimelinePane) :
  isCancellationRequested request p = false →
  uriDiffers request p = false →
  (applyPage localeCompare request (Timeline.items timeline) (_items p)).1 = true →
  handleRequest localeCompare request (Resolved (Some timeline)) p
  = let q :=
      updateLoadMore timeline
        (set_items
           (applyPage localeCompare request (Timeline.items timeline) (_items p)).2
           (set_cursorsByProvider
              (recordPage (TimelineRequest.source request) timeline
                 (TimelineRequest.options request) (_cursorsByProvider p))
              (set_pendingRequests
                 (delete (TimelineRequest.source request) (_pendingRequests p))
                 (set_awaiting (resume request (awaiting p)) p)))) in
    if negb (bool_decide (length (_items p) = 0%nat))
       && negb (bool_decide (size (_pendingRequests q) = 0%nat))
    then refreshDebounced q
    else refresh q.
Proof.
  intros Hc Hu Hchanged. unfold handleRequest. cbv zeta.
  change (isCancellationRequested request _)
    with (isCancellationRequested request p).
  change (uriDiffers request _) with (uriDiffers request p).
  rewrite Hc, Hu.
  change (_items (set_cursorsByProvider _ _)) with (_items p).
  destruct (applyPage localeCompare request (Timeline.items timeline) (_items p))
    as [changed l].
  simpl in Hchanged. subst changed. reflexivity.
Qed.

(** Cursors, pending requests and list after such a completion. *)
Lemma handleRequest_changed localeCompare (request : TimelineRequest.t)
    (timeline : Timeline.t) (p : TimelinePane) :
  isCancellationRequested request p = false →
  uriDiffers request p = false →
  (applyPage localeCompare request (Timeline.items timeline) (_items p)).1 = true →
  let p' := handleRequest localeCompare request (Resolved (Some timeline)) p in
  let q :=
    set_items
      (applyPage localeCompare request (Timeline.items timeline) (_items p)).2
      (set_cursorsByProvider
         (recordPage (TimelineRequest.source request) timeline
            (TimelineRequest.options request) (_cursorsByProvider p))
         (set_pendingRequests
            (delete (TimelineRequest.source request) (_pendingRequests p))
            (set_awaiting (resume request (awaiting p)) p))) in
  _cursorsByProvider p' = _cursorsByProvider q
  ∧ _pendingRequests p' = _pendingRequests q
  ∧ _items p' = _items (updateLoadMore timeline q).
Proof.
  intros Hc Hu Hchanged. cbv zeta.
  rewrite handleRequest_changed_eq by done. cbv zeta.
  match goal with
  | |- context [updateLoadMore timeline ?q] =>
      destruct (updateLoadMore_frame timeline q) as [Hcur Hpen];
      revert Hcur Hpen; generalize (updateLoadMore timeline q)
  end.
  intros q' Hcur Hpen.
  destruct (_ && _); simpl; rewrite <- ?Hcur, <- ?Hpen; done.
Qed.


(** [updateLoadMore] once no request is pending and the list is not empty. *)
Lemma updateLoadMore_settled (timeline : Timeline.t) (q : TimelinePane) :
  size (_pendingRequests q) = 0%nat →
  _items q ≠ [] →
  _items (updateLoadMore timeline q)
  = let lastIndex := (length (_items q) - 1)%nat in
    if pagingMore timeline || someCursorsMore (_cursorsByProvider q) then
      if isLoadMoreCommandItem (last (_items q))
      then alter (setThemeIcon None) lastIndex (_items q)
      else _items q ++ [loadMoreItem]
    else
      if isLoadMoreCommandItem (last (_items q))
      then delete lastIndex (_items q)
      else _items q.
Proof.
  intros Hsize Hne. unfold updateLoadMore.
  rewrite (bool_decide_eq_true_2 _ Hsize).
  assert (bool_decide (length (_items q) = 0%nat) = false) as ->.
  { apply bool_decide_eq_false. by destruct (_items q). }
  assert (_items q !! (length (_items q) - 1)%nat = last (_items q)) as ->.
  { rewrite last_lookup. f_equal. lia. }
  simpl. destruct (_ || _); by destruct (isLoadMoreCommandItem _).
Qed.

Lemma alter_last {A} (f : A → A) (l : list A) (x : A) :
  alter f (length (l ++ [x]) - 1)%nat (l ++ [x]) = l ++ [f x].
Proof.
  rewrite length_app. simpl.
  replace (length l + 1 - 1)%nat with (length l + 0)%nat by lia.
  by rewrite alter_app_r.
Qed.

Lemma delete_last {A} (l : list A) (x : A) :
  delete (length (l ++ [x]) - 1)%nat (l ++ [x]) = l.
Proof.
  rewrite length_app. simpl.
  replace (length l + 1 - 1)%nat with (length l) by lia.
  rewrite delete_middle. apply app_nil_r.
Qed.

(** C7 (the code does not do what the claim says).  While more is loaded
    in the run the load-more element is busy and [moreRequest] is the only
    request.  (1) It completes with an empty last page: no request is
    left, no cursors say that more exists, and the busy load-more element
    is still in the list; as its icon is the signal that a load is
    running, opening it from then on does nothing.  (2) It completes with
    an empty page that says that more exists: the load-more element is
    still busy.  (3) It completes with a last entry: the list is sorted,
    the load-more element (timestamp 0) comes before the entries dated
    before the epoch, and it is still in the list, busy. *)
Theorem handleRequest_leaves_busy_loadMore :
  (let p' := handleRequest baseCompare moreRequest (Resolved (Some emptyLastPage))
               loadingMore in
   size (_pendingRequests p') = 0%nat
   ∧ someCursorsMore (_cursorsByProvider p') = false
   ∧ _items p' = [old1; old2; busyLoadMore]
   ∧ loadMoreOpened busyLoadMore p' = p')
  ∧ (let p' := handleRequest baseCompare moreRequest (Resolved (Some emptyPageMore))
                 loadingMore in
     size (_pendingRequests p') = 0%nat
     ∧ someCursorsMore (_cursorsByProvider p') = true
     ∧ _items p' = [old1; old2; busyLoadMore]
     ∧ loadMoreOpened busyLoadMore p' = p')
  ∧ (let p' := handleRequest baseCompare moreRequest (Resolved (Some lastPage))
                 loadingMore in
     size (_pendingRequests p') = 0%nat
     ∧ someCursorsMore (_cursorsByProvider p') = false
     ∧ _items p' = [busyLoadMore; old1; old2; old3]).
Proof. repeat split; vm_compute; reflexivity. Qed.

(** ** Requests *)

(** Triggering a token keeps the size of the store, the sources and the
    suspended calls. *)
Lemma cancelTokenSource_frame (t : nat) (p : TimelinePane) :
  length (tokenSources (cancelTokenSource t p)) = length (tokenSources p)
  ∧ timelineSources (cancelTokenSource t p) = timelineSources p
  ∧ awaiting (cancelTokenSource t p) = awaiting p.
Proof.
  unfold cancelTokenSource. destruct (tokenSources p !! t) as [ts|]; [|done].
  destruct (TokenSource.isCancellationRequested ts); [done|].
  simpl. by rewrite length_insert.
Qed.

(** A token of the store is triggered after [dispose(true)]. *)
Lemma cancelTokenSource_cancelled (t : nat) (p : TimelinePane) :
  (t < length (tokenSources p))%nat →
  ∃ ts, tokenSources (cancelTokenSource t p) !! t = Some ts
        ∧ TokenSource.isCancellationRequested ts = true.
Proof.
  intros Ht. unfold cancelTokenSource.
  destruct (lookup_lt_is_Some_2 _ _ Ht) as [ts Hts]. rewrite Hts.
  destruct (TokenSource.isCancellationRequested ts) eqn:Hc.
  - exists ts. split; [exact Hts | exact Hc].
  - exists (TokenSource.mk true []). split; [|reflexivity].
    simpl. by apply list_lookup_insert_eq.
Qed.

(** C3 (amended): [_pendingRequests] is a map, so it holds at most one
    request per source.  When a source that has a pending request is
    loaded again with [reset], the token of the pending request is
    triggered, and a new request with a token source of its own takes its
    place in the map.  When it is loaded again without [reset] (and its
    cursors say that more exists), the pending request is not cancelled:
    the new request is built on the token source of the pending one and
    takes its place in the map. *)
Theorem loadTimeline_source_supersedes (options : TimelineOptions.t)
    (defaultPageSize : nat) (uri : URI.t) (source : string)
    (p : TimelinePane) (old : TimelineRequest.t) :
  _pendingRequests p !! source = Some old →
  (TimelineRequest.tokenSource old < length (tokenSources p))%nat →
  source ∈ timelineSources p →
  (let p' := loadTimeline_source true options defaultPageSize uri source p in
   isCancellationRequested old p' = true
   ∧ ∃ new, _pendingRequests p' !! source = Some new
       ∧ TimelineRequest.tokenSource new ≠ TimelineRequest.tokenSource old
       ∧ isCancellationRequested new p' = false
       ∧ awaiting p' = awaiting p ++ [new])
  ∧ (TimelineCursors.more <$> _cursorsByProvider p !! source = Some true →
     let p' := loadTimeline_source false options defaultPageSize uri source p in
     isCancellationRequested old p' = isCancellationRequested old p
     ∧ ∃ new, _pendingRequests p' !! source = Some new
         ∧ TimelineRequest.tokenSource new = TimelineRequest.tokenSource old
         ∧ awaiting p' = awaiting p ++ [new]).
Proof.
  intros Hold Ht Hsrc. split.
  - cbv zeta. unfold loadTimeline_source. simpl negb. cbv iota. rewrite Hold.
    destruct (cancelTokenSource_frame (TimelineRequest.tokenSource old) p)
      as (Hlen & Hsources & Hawait).
    destruct (cancelTokenSource_cancelled (TimelineRequest.tokenSource old) p Ht)
      as (ts & Hts & Hcancelled).
    revert Hlen Hsources Hawait Hts.
    generalize (cancelTokenSource (TimelineRequest.tokenSource old) p).
    intros q Hlen Hsources Hawait Hts.
    unfold newCancellationTokenSource, getTimeline. cbv zeta.
    change (timelineSources (set_tokenSources _ q)) with (timelineSources q).
    rewrite Hsources, (bool_decide_eq_true_2 _ Hsrc).
    unfold handleRequest_await, onCancellationRequested, isCancellationRequested.
    simpl. rewrite lookup_insert_eq, Hawait, Hlen.
    assert (TimelineRequest.tokenSource old < length (tokenSources q))%nat as Ht'
      by lia.
    split.
    + rewrite list_lookup_alter_ne by lia.
      rewrite lookup_app_l by done. by rewrite Hts.
    + eexists. split; [done|]. simpl. split; [lia|]. split; [|done].
      rewrite list_lookup_alter_eq, lookup_app_r by lia.
      rewrite Hlen, Nat.sub_diag. done.
  - intros Hmore. cbv zeta. unfold loadTimeline_source. simpl negb. cbv iota.
    rewrite Hold, Hmore. simpl.
    unfold getTimeline. rewrite (bool_decide_eq_true_2 _ Hsrc).
    unfold handleRequest_await. simpl. rewrite lookup_insert_eq.
    split; [done|]. eexists. done.
Qed.

(** While more is loaded in the run, [git] has the pending request
    [moreRequest]; its cursors say that more exists. *)
Lemma loadTimeline_source_supersedes_witness :
  isCancellationRequested moreRequest
    (loadTimeline_source true noOptions InitialPageSize fileA "git" loadingMore)
  = true
  ∧ isCancellationRequested moreRequest
      (loadTimeline_source false changeOptions SubsequentPageSize fileA "git" loadingMore)
    = isCancellationRequested moreRequest loadingMore.
Proof.
  assert (_pendingRequests loadingMore !! "git" = Some moreRequest) as Hold
    by (vm_compute; reflexivity).
  assert (TimelineRequest.tokenSource moreRequest < length (tokenSources loadingMore))%nat
    as Ht by (vm_compute; lia).
  assert ("git" ∈ timelineSources loadingMore) as Hsrc
    by (apply (bool_decide_unpack _); vm_compute; exact I).
  split.
  - apply (loadTimeline_source_supersedes noOptions InitialPageSize fileA "git"
             loadingMore moreRequest Hold Ht Hsrc).
  - apply (loadTimeline_source_supersedes changeOptions SubsequentPageSize fileA "git"
             loadingMore moreRequest Hold Ht Hsrc).
    vm_compute. reflexivity.
Defined.

(** C3 as stated fails.  While [moreRequest] is awaited, [git] is loaded
    again without [reset]: [moreRequest] is not cancelled, and two calls
    for [git] are awaited.  When [moreRequest] then completes, its page
    is put into the list, and its [finally] removes from the map the
    entry of the request that superseded it, which is still awaited. *)
Lemma incremental_load_keeps_previous_request :
  _pendingRequests loadingMore !! "git" = Some moreRequest
  ∧ awaiting loadingMore = [moreRequest]
  ∧ _pendingRequests changedWhileLoading !! "git" = Some changeRequest
  ∧ isCancellationRequested moreRequest changedWhileLoading = false
  ∧ awaiting changedWhileLoading = [moreRequest; changeRequest]
  ∧ (let p' := handleRequest baseCompare moreRequest (Resolved (Some lastPage))
                 changedWhileLoading in
     _items p' = [busyLoadMore; old1; old2; old3]
     ∧ _pendingRequests p' !! "git" = None
     ∧ awaiting p' = [changeRequest]).
Proof. repeat split; vm_compute; reflexivity. Qed.

(* ===================================================================== *)
(** * Further properties *)

(** ** Loads *)

Lemma isCancellationRequested_triggered (request : TimelineRequest.t)
    (p : TimelinePane) :
  isCancellationRequested request p = true
  ↔ triggered p (TimelineRequest.tokenSource request).
Proof.
  unfold isCancellationRequested, triggered.
  destruct (tokenSources p !! TimelineRequest.tokenSource request) as [ts|].
  - split; [eauto|]. by intros (ts' & [= <-] & ?).
  - split; [done|]. by intros (ts' & ? & ?).
Qed.

Lemma triggeredIn_insert (l : list TokenSource.t) (t0 t : nat) :
  triggeredIn l t → triggeredIn (<[t0 := TokenSource.mk true []]> l) t.
Proof.
  intros (ts & Hts & Hflag). destruct (decide (t0 = t)) as [->|Hne].
  - exists (TokenSource.mk true []). split; [|done].
    apply list_lookup_insert_eq. by eapply lookup_lt_Some.
  - exists ts. by rewrite list_lookup_insert_ne.
Qed.

Lemma triggeredIn_new (l : list TokenSource.t) (t : nat) :
  triggeredIn (l ++ [TokenSource.mk false []]) t ↔ triggeredIn l t.
Proof.
  unfold triggeredIn. split; intros (ts & Hts & Hflag).
  - apply lookup_app_Some in Hts as [Hts|[_ Hts]]; [eauto|].
    apply list_lookup_singleton_Some in Hts as [_ <-]. done.
  - exists ts. split; [|done]. by apply lookup_app_l_Some.
Qed.

Lemma triggeredIn_listener (l : list TokenSource.t) (t1 t : nat) (source : string) :
  triggeredIn
    (alter (λ ts, TokenSource.mk (TokenSource.isCancellationRequested ts)
                    (TokenSource.listeners ts ++ [source])) t1 l) t
  ↔ triggeredIn l t.
Proof.
  unfold triggeredIn. destruct (decide (t1 = t)) as [->|Hne].
  - rewrite list_lookup_alter_eq. destruct (l !! t) as [ts|]; simpl.
    + split; intros (ts' & [= <-] & Hflag); eauto.
    + split; intros (ts' & ? & _); done.
  - by rewrite list_lookup_alter_ne.
Qed.

(** Case analysis over one turn of the loop of [loadTimeline]. *)
Ltac loop_cases reset p source :=
  cbv zeta;
  unfold loadTimeline_source, getTimeline, newCancellationTokenSource,
    handleRequest_await, onCancellationRequested, cancelTokenSource;
  destruct reset; simpl;
  [ destruct (_pendingRequests p !! source) as [?r|] eqn:?Hpending; simpl;
    [ destruct (tokenSources p !! TimelineRequest.tokenSource r) as [?ts|] eqn:?Hts;
      simpl;
      [ destruct (TokenSource.isCancellationRequested ts) eqn:?Hflag; simpl |];
      destruct (bool_decide (source ∈ timelineSources p)) eqn:?Hprovider; simpl
    | destruct (bool_decide (source ∈ timelineSources p)) eqn:?Hprovider; simpl ]
  | destruct (_cursorsByProvider p !! source) as [?c|] eqn:?Hcursors; simpl;
    [ destruct (TimelineCursors.more c) eqn:?Hmore; simpl;
      [ destruct (_pendingRequests p !! source) as [?r|] eqn:?Hpending; simpl;
        destruct (bool_decide (source ∈ timelineSources p)) eqn:?Hprovider; simpl
      |]
    |] ].

(** One turn of the loop writes the pending requests, the token sources
    and the suspended calls, and nothing else. *)
Lemma loadTimeline_source_frame (reset : bool) (options : TimelineOptions.t)
    (defaultPageSize : nat) (uri : URI.t) (source : string) (p : TimelinePane) :
  let p' := loadTimeline_source reset options defaultPageSize uri source p in
  _items p' = _items p
  ∧ _cursorsByProvider p' = _cursorsByProvider p
  ∧ _uri p' = _uri p
  ∧ _excludedSources p' = _excludedSources p
  ∧ timelineSources p' = timelineSources p
  ∧ _message p' = _message p
  ∧ _tree p' = _tree p.
Proof. loop_cases reset p source; done. Qed.

(** One turn of the loop issues at most one request: for the source of
    the turn, for the resource in view, and only if the service has a
    provider for the source; without [reset], only if the cursors of the
    source say that more exists. *)
Lemma loadTimeline_source_issues (reset : bool) (options : TimelineOptions.t)
    (defaultPageSize : nat) (uri : URI.t) (source : string) (p : TimelinePane) :
  let p' := loadTimeline_source reset options defaultPageSize uri source p in
  ∃ new, awaiting p' = awaiting p ++ new
    ∧ ∀ r, r ∈ new →
        TimelineRequest.source r = source
        ∧ TimelineRequest.uri r = uri
        ∧ source ∈ timelineSources p
        ∧ _pendingRequests p' !! source = Some r
        ∧ TimelineRequest.options r
          = issuedOptions reset options defaultPageSize
              (_cursorsByProvider p !! source)
        ∧ (reset = false →
             TimelineCursors.more <$> _cursorsByProvider p !! source = Some true).
Proof.
  unfold issuedOptions.
  loop_cases reset p source;
    try (exists []; split; [by rewrite app_nil_r | by intros ? ?%elem_of_nil]);
    (eexists [_]; split; [reflexivity|];
     intros ? ->%list_elem_of_singleton; simpl;
     rewrite lookup_insert_eq; apply bool_decide_eq_true in Hprovider;
     repeat split; try done).
Qed.

(** A triggered token stays triggered over one turn of the loop; without
    [reset] no token is triggered in the turn. *)
Lemma loadTimeline_source_triggered (reset : bool) (options : TimelineOptions.t)
    (defaultPageSize : nat) (uri : URI.t) (source : string) (p : TimelinePane)
    (t : nat) :
  let p' := loadTimeline_source reset options defaultPageSize uri source p in
  (triggered p t → triggered p' t)
  ∧ (reset = false → triggered p' t → triggered p t).
Proof.
  change (triggered ?q t) with (triggeredIn (tokenSources q) t).
  loop_cases reset p source;
    rewrite ?triggeredIn_listener, ?triggeredIn_new;
    (split; [|done]); try done; intros; by apply triggeredIn_insert.
Qed.

(** The pane handed to the loop of [loadTimeline]: what the lines before
    the loop leave. *)
Lemma cancelTokenSource_fields (t : nat) (p : TimelinePane) :
  let p' := cancelTokenSource t p in
  _items p' = _items p
  ∧ _cursorsByProvider p' = _cursorsByProvider p
  ∧ _uri p' = _uri p
  ∧ _excludedSources p' = _excludedSources p
  ∧ timelineSources p' = timelineSources p
  ∧ _message p' = _message p
  ∧ _tree p' = _tree p
  ∧ awaiting p' = awaiting p
  ∧ _loadingMessageTimer p' = _loadingMessageTimer p
  ∧ (∀ t', triggered p t' → triggered p' t').
Proof.
  cbv zeta. unfold cancelTokenSource.
  destruct (tokenSources p !! t) as [ts|]; [|done].
  destruct (TokenSource.isCancellationRequested ts); [done|].
  repeat split. intros t'. apply triggeredIn_insert.
Qed.

Lemma cancelPending_fields (p : TimelinePane) :
  let p' := cancelPending p in
  _items p' = _items p
  ∧ _cursorsByProvider p' = _cursorsByProvider p
  ∧ _uri p' = _uri p
  ∧ _excludedSources p' = _excludedSources p
  ∧ timelineSources p' = timelineSources p
  ∧ _message p' = _message p
  ∧ _tree p' = _tree p
  ∧ awaiting p' = awaiting p
  ∧ _loadingMessageTimer p' = _loadingMessageTimer p
  ∧ (∀ t', triggered p t' → triggered p' t').
Proof.
  cbv zeta. unfold cancelPending.
  generalize ((map_to_list (_pendingRequests p)).*1). intros keys.
  revert p. induction keys as [|k keys IH]; intros p; simpl; [done|].
  match goal with
  | |- context [foldl _ ?q keys] => specialize (IH q)
  end.
  destruct (_pendingRequests p !! k) as [r|]; [|exact IH].
  destruct (cancelTokenSource_fields (TimelineRequest.tokenSource r) p)
    as (? & ? & ? & ? & ? & ? & ? & ? & ? & ?).
  destruct IH as (? & ? & ? & ? & ? & ? & ? & ? & ? & ?).
  repeat split; try congruence. auto.
Qed.

(** Over the whole loop. *)
Lemma loadTimeline_loop_frame (reset : bool) (options : TimelineOptions.t)
    (defaultPageSize : nat) (uri : URI.t) (sources : list string)
    (p : TimelinePane) :
  let p' := foldl (λ p source,
                     loadTimeline_source reset options defaultPageSize uri source p)
              p sources in
  _items p' = _items p
  ∧ _cursorsByProvider p' = _cursorsByProvider p
  ∧ _uri p' = _uri p
  ∧ _excludedSources p' = _excludedSources p
  ∧ timelineSources p' = timelineSources p
  ∧ _message p' = _message p
  ∧ _tree p' = _tree p.
Proof.
  cbv zeta. revert p. induction sources as [|s sources IH]; intros p; simpl; [done|].
  specialize (IH (loadTimeline_source reset options defaultPageSize uri s p)).
  destruct (loadTimeline_source_frame reset options defaultPageSize uri s p)
    as (? & ? & ? & ? & ? & ? & ?).
  destruct IH as (? & ? & ? & ? & ? & ? & ?).
  repeat split; congruence.
Qed.

Lemma loadTimeline_loop_triggered (reset : bool) (options : TimelineOptions.t)
    (defaultPageSize : nat) (uri : URI.t) (sources : list string)
    (p : TimelinePane) (t : nat) :
  let p' := foldl (λ p source,
                     loadTimeline_source reset options defaultPageSize uri source p)
              p sources in
  (triggered p t → triggered p' t)
  ∧ (reset = false → triggered p' t → triggered p t).
Proof.
  cbv zeta. revert p. induction sources as [|s sources IH]; intros p; simpl; [done|].
  specialize (IH (loadTimeline_source reset options defaultPageSize uri s p)).
  destruct (loadTimeline_source_triggered reset options defaultPageSize uri s p t).
  destruct IH. split; auto.
Qed.

Lemma loadTimeline_loop_issues (reset : bool) (options : TimelineOptions.t)
    (defaultPageSize : nat) (uri : URI.t) (sources : list string)
    (p : TimelinePane) :
  let p' := foldl (λ p source,
                     loadTimeline_source reset options defaultPageSize uri source p)
              p sources in
  ∃ new, awaiting p' = awaiting p ++ new
    ∧ ∀ r, r ∈ new →
        TimelineRequest.source r ∈ sources
        ∧ TimelineRequest.uri r = uri
        ∧ TimelineRequest.source r ∈ timelineSources p
        ∧ TimelineRequest.options r
          = issuedOptions reset options defaultPageSize
              (_cursorsByProvider p !! TimelineRequest.source r)
        ∧ (reset = false →
             TimelineCursors.more <$>
               _cursorsByProvider p !! TimelineRequest.source r = Some true).
Proof.
  cbv zeta. revert p. induction sources as [|s sources IH]; intros p; simpl.
  { exists []. split; [by rewrite app_nil_r | by intros ? ?%elem_of_nil]. }
  specialize (IH (loadTimeline_source reset options defaultPageSize uri s p)).
  destruct (loadTimeline_source_frame reset options defaultPageSize uri s p)
    as (_ & Hcur & _ & _ & Hsrc & _).
  destruct (loadTimeline_source_issues reset options defaultPageSize uri s p)
    as (new1 & Hnew1 & Hall1).
  destruct IH as (new2 & Hnew2 & Hall2).
  exists (new1 ++ new2). split; [by rewrite Hnew2, Hnew1, app_assoc|].
  intros r [Hr|Hr]%elem_of_app.
  - destruct (Hall1 r Hr) as (<- & ? & ? & _ & ? & ?).
    split; [apply list_elem_of_here|done].
  - destruct (Hall2 r Hr) as (? & ? & ? & ? & ?).
    rewrite Hcur, Hsrc in *. split; [by apply list_elem_of_further|done].
Qed.

Lemma handleRequest_frame localeCompare (request : TimelineRequest.t)
    (outcome : Outcome) (p : TimelinePane) :
  let p' := handleRequest localeCompare request outcome p in
  tokenSources p' = tokenSources p
  ∧ _uri p' = _uri p
  ∧ _excludedSources p' = _excludedSources p
  ∧ timelineSources p' = timelineSources p.
Proof.
  cbv zeta. unfold handleRequest. cbv zeta.
  destruct outcome as [[timeline|]|]; [|done|done].
  destruct (_ || _); [done|].
  destruct (applyPage _ _ _ _) as [changed l].
  destruct changed; simpl negb; cbv iota.
  - unfold updateLoadMore.
    repeat match goal with
           | |- context [if ?b then _ else _] => destruct b
           end; done.
  - destruct (_ && _); done.
Qed.

(** [loadTimeline] in one piece: the pane [q] left by the lines that
    clear the caches on a full reset, then the early returns, then the
    loop. *)
Lemma loadTimeline_unfold (reset : bool) (sources : option (list string))
    (options : TimelineOptions.t) (p : TimelinePane) :
  let all := match sources with None => true | Some _ => false end in
  let q :=
    if all && reset
    then set_pendingRequests ∅
           (cancelPending
              (set_loadingMessageTimer None
                 (set_cursorsByProvider ∅ (set_items [] p))))
    else p in
  loadTimeline reset sources options p =
  match _uri p with
  | None => q
  | Some u =>
      if all && cannotProvideTimeline u
      then set_tree None (set_message (Some editorCannotProvideTimeline) q)
      else
        let q1 := if all && reset then set_loadingMessageTimer (Some u) q else q in
        let filteredSources :=
          filter (λ s, s ∉ _excludedSources p) (default (timelineSources p) sources) in
        if bool_decide (length filteredSources = 0%nat)
        then if reset then refresh q1 else q1
        else
          let lastIndex := (length (_items q1) - 1)%nat in
          foldl (λ p source,
                   loadTimeline_source reset options
                     (if reset then InitialPageSize else SubsequentPageSize)
                     u source p)
            (if isLoadMoreCommandItem (_items q1 !! lastIndex)
             then set_items (alter (setThemeIcon (Some "sync~spin")) lastIndex (_items q1)) q1
             else q1)
            filteredSources
  end.
Proof.
  cbv zeta. unfold loadTimeline. cbv zeta.
  destruct sources as [srcs|]; simpl andb; cbv iota.
  - destruct (_uri p) as [u|]; done.
  - destruct reset; simpl andb; cbv iota.
    + set (q := cancelPending _).
      destruct (cancelPending_fields
                  (set_loadingMessageTimer None
                     (set_cursorsByProvider ∅ (set_items [] p))))
        as (_ & _ & Huri & Hexcluded & Hsources & _).
      fold q in Huri, Hexcluded, Hsources. simpl in Huri, Hexcluded, Hsources.
      change (_uri (set_pendingRequests ∅ q)) with (_uri q). rewrite Huri.
      destruct (_uri p) as [u|] eqn:Hu; [|simpl; by rewrite ?Huri, ?Hu].
      destruct (cannotProvideTimeline u); [done|].
      change (_uri (set_loadingMessageTimer _ _)) with (_uri q). rewrite ?Huri, ?Hu.
      change (_excludedSources (set_loadingMessageTimer _ _)) with (_excludedSources q).
      change (timelineSources (set_loadingMessageTimer _ _)) with (timelineSources q).
      rewrite Hexcluded, Hsources. done.
    + destruct (_uri p) as [u|] eqn:Hu; [|simpl; by rewrite ?Hu].
      destruct (cannotProvideTimeline u); [done|]. simpl. by rewrite ?Hu.
Qed.

(** [loadTimeline] keeps the resource in view, the excluded sources and
    the sources of the service. *)
Lemma loadTimeline_frame (reset : bool) (sources : option (list string))
    (options : TimelineOptions.t) (p : TimelinePane) :
  let p' := loadTimeline reset sources options p in
  _uri p' = _uri p
  ∧ _excludedSources p' = _excludedSources p
  ∧ timelineSources p' = timelineSources p.
Proof.
  cbv zeta. rewrite loadTimeline_unfold. cbv zeta.
  set (q := if _ && reset then _ else p).
  assert (_uri q = _uri p ∧ _excludedSources q = _excludedSources p
          ∧ timelineSources q = timelineSources p) as (Hu & He & Hs).
  { subst q. destruct (_ && reset); [|done].
    destruct (cancelPending_fields
                (set_loadingMessageTimer None
                   (set_cursorsByProvider ∅ (set_items [] p))))
      as (_ & _ & ? & ? & ? & _). done. }
  destruct (_uri p) as [u|]; [|done].
  destruct (_ && cannotProvideTimeline u); [done|].
  set (q1 := if _ && reset then _ else q).
  assert (_uri q1 = _uri q ∧ _excludedSources q1 = _excludedSources q
          ∧ timelineSources q1 = timelineSources q) as (Hu1 & He1 & Hs1).
  { subst q1. by destruct (_ && reset). }
  destruct (bool_decide _).
  - destruct reset; simpl; by rewrite ?Hu1, ?He1, ?Hs1.
  - match goal with
    | |- context [foldl _ ?q0 ?l] =>
        destruct (loadTimeline_loop_frame reset options
                    (if reset then InitialPageSize else SubsequentPageSize) u l q0)
          as (_ & _ & -> & -> & -> & _)
    end.
    destruct (isLoadMoreCommandItem _); simpl; by rewrite ?Hu1, ?He1, ?Hs1.
Qed.

(** The pane [loadTimeline] starts from once the caches are cleared. *)
Lemma loadTimeline_cleared_fields (p : TimelinePane) :
  let q := set_pendingRequests ∅
             (cancelPending
                (set_loadingMessageTimer None
                   (set_cursorsByProvider ∅ (set_items [] p)))) in
  _items q = [] ∧ _cursorsByProvider q = ∅ ∧ _pendingRequests q = ∅
  ∧ _uri q = _uri p ∧ _excludedSources q = _excludedSources p
  ∧ timelineSources q = timelineSources p ∧ _message q = _message p
  ∧ _tree q = _tree p ∧ awaiting q = awaiting p
  ∧ (∀ t, triggered p t → triggered q t).
Proof.
  cbv zeta.
  destruct (cancelPending_fields
              (set_loadingMessageTimer None
                 (set_cursorsByProvider ∅ (set_items [] p))))
    as (? & ? & ? & ? & ? & ? & ? & ? & ? & ?).
  repeat split; done.
Qed.

(** What [loadTimeline] issues, whatever its arguments. *)
Lemma loadTimeline_issues (reset : bool) (sources : option (list string))
    (options : TimelineOptions.t) (p : TimelinePane) :
  ∃ new, awaiting (loadTimeline reset sources options p) = awaiting p ++ new
    ∧ ∀ r, r ∈ new →
        (TimelineRequest.source r ∉ _excludedSources p)
        ∧ TimelineRequest.source r ∈ default (timelineSources p) sources
        ∧ TimelineRequest.source r ∈ timelineSources p
        ∧ _uri p = Some (TimelineRequest.uri r)
        ∧ TimelineOptions.before (TimelineRequest.options r)
          = TimelineOptions.before options
        ∧ (reset = true →
             TimelineOptions.cursor (TimelineRequest.options r)
             = TimelineOptions.cursor options)
        ∧ (reset = false →
             (TimelineCursors.more <$>
                _cursorsByProvider p !! TimelineRequest.source r) = Some true
             ∧ TimelineRequest.options r
               = TimelineOptions.mk
                   (requestCursor
                      (_cursorsByProvider p !! TimelineRequest.source r) options)
                   (TimelineOptions.before options)
                   (requestLimit None options SubsequentPageSize)).
Proof.
  rewrite loadTimeline_unfold. cbv zeta.
  set (q := if _ && reset then _ else p).
  assert (awaiting q = awaiting p ∧ timelineSources q = timelineSources p
          ∧ (reset = false → _cursorsByProvider q = _cursorsByProvider p))
    as (Ha & Hs & Hc).
  { subst q. destruct (_ && reset) eqn:Hr; [|done].
    destruct (loadTimeline_cleared_fields p) as (_ & _ & _ & _ & _ & ? & _ & _ & ? & _).
    apply andb_true_iff in Hr as [_ ->]. done. }
  assert (∀ (P : TimelineRequest.t → Prop) q', awaiting q' = awaiting q →
            ∃ new, awaiting q' = awaiting p ++ new ∧ ∀ r, r ∈ new → P r) as Hsame.
  { intros P q' ->. exists []. split; [by rewrite Ha, app_nil_r|].
    by intros ? ?%elem_of_nil. }
  destruct (_uri p) as [u|]; [|by apply Hsame].
  destruct (_ && cannotProvideTimeline u); [by apply Hsame|].
  set (q1 := if _ && reset then _ else q).
  assert (awaiting q1 = awaiting q ∧ timelineSources q1 = timelineSources q
          ∧ _cursorsByProvider q1 = _cursorsByProvider q) as (Ha1 & Hs1 & Hc1).
  { subst q1. by destruct (_ && reset). }
  destruct (bool_decide _).
  { apply Hsame. by destruct reset. }
  match goal with
  | |- context [foldl _ ?q0 ?l] =>
      destruct (loadTimeline_loop_issues reset options
                  (if reset then InitialPageSize else SubsequentPageSize) u l q0)
        as (new & Hnew & Hall);
      assert (awaiting q0 = awaiting p ∧ timelineSources q0 = timelineSources p
              ∧ (reset = false → _cursorsByProvider q0 = _cursorsByProvider p))
        as (Ha0 & Hs0 & Hc0)
  end.
  { destruct (isLoadMoreCommandItem _); simpl; rewrite ?Ha1, ?Hs1, ?Hc1; auto. }
  cbv zeta in Hnew. exists new. split; [by rewrite Hnew, Ha0|].
  intros r Hr. destruct (Hall r Hr) as (Hin & Huri & Hprov & Hopts & Hmore).
  apply list_elem_of_filter in Hin as [Hex Hin].
  rewrite Hs0 in Hprov. split; [done|]. split; [done|]. split; [done|].
  split; [by rewrite Huri|].
  split; [rewrite Hopts; by destruct reset|].
  split; [intros ->; by rewrite Hopts|].
  intros ->. rewrite <- Hc0 by done. split; [by apply Hmore | exact Hopts].
Qed.

(** X1: whatever its arguments, [loadTimeline] only adds suspended calls,
    and every request it issues is for a source that is not excluded, that
    is among the sources asked for and that the service has a provider
    for; it is for the resource in view and has the [before] of the
    options.  With [reset] it has the cursor of the options; without, it
    goes to a source whose cursors say that more exists, with the cursor
    read from them and at most [SubsequentPageSize] as limit. *)
Theorem loadTimeline_requests (reset : bool) (sources : option (list string))
    (options : TimelineOptions.t) (p : TimelinePane) :
  ∃ new, awaiting (loadTimeline reset sources options p) = awaiting p ++ new
    ∧ ∀ r, r ∈ new →
        (TimelineRequest.source r ∉ _excludedSources p)
        ∧ TimelineRequest.source r ∈ default (timelineSources p) sources
        ∧ TimelineRequest.source r ∈ timelineSources p
        ∧ _uri p = Some (TimelineRequest.uri r)
        ∧ TimelineOptions.before (TimelineRequest.options r)
          = TimelineOptions.before options
        ∧ (reset = true →
             TimelineOptions.cursor (TimelineRequest.options r)
             = TimelineOptions.cursor options)
        ∧ (reset = false →
             (TimelineCursors.more <$>
                _cursorsByProvider p !! TimelineRequest.source r) = Some true
             ∧ TimelineRequest.options r
               = TimelineOptions.mk
                   (requestCursor
                      (_cursorsByProvider p !! TimelineRequest.source r) options)
                   (TimelineOptions.before options)
                   (requestLimit None options SubsequentPageSize)).
Proof. apply loadTimeline_issues. Qed.

(** Triggered tokens over [loadTimeline]. *)
Lemma loadTimeline_triggered (reset : bool) (sources : option (list string))
    (options : TimelineOptions.t) (p : TimelinePane) (t : nat) :
  let p' := loadTimeline reset sources options p in
  (triggered p t → triggered p' t)
  ∧ (reset = false → triggered p' t → triggered p t).
Proof.
  cbv zeta. rewrite loadTimeline_unfold. cbv zeta.
  set (q := if _ && reset then _ else p).
  assert ((triggered p t → triggered q t)
          ∧ (reset = false → tokenSources q = tokenSources p)) as (Hq & Hq').
  { subst q. destruct (_ && reset) eqn:Hr; [|done].
    apply andb_true_iff in Hr as [_ ->]. split; [|done].
    by apply loadTimeline_cleared_fields. }
  assert (∀ q', tokenSources q' = tokenSources q →
            (triggered p t → triggered q' t)
            ∧ (reset = false → triggered q' t → triggered p t)) as Hsame.
  { intros q' Hq0. unfold triggered in *. rewrite Hq0. split; [done|].
    intros Hr. by rewrite (Hq' Hr). }
  destruct (_uri p) as [u|]; [|by apply Hsame].
  destruct (_ && cannotProvideTimeline u); [by apply Hsame|].
  set (q1 := if _ && reset then _ else q).
  assert (tokenSources q1 = tokenSources q) as Hq1.
  { subst q1. by destruct (_ && reset). }
  destruct (bool_decide _).
  { apply Hsame. by destruct reset. }
  match goal with
  | |- context [foldl _ ?q0 ?l] =>
      destruct (loadTimeline_loop_triggered reset options
                  (if reset then InitialPageSize else SubsequentPageSize) u l q0 t)
        as (Hfwd & Hbwd);
      assert (tokenSources q0 = tokenSources q) as Hq0
  end.
  { by destruct (isLoadMoreCommandItem _). }
  destruct (Hsame _ Hq0) as (Hfwd0 & Hbwd0). split; [auto|].
  intros Hr Ht. by apply Hbwd0, Hbwd.
Qed.

(** [loadTimeline] without [reset] triggers no token. *)
Lemma loadTimeline_incremental (sources : option (list string))
    (options : TimelineOptions.t) (p : TimelinePane)
    (request : TimelineRequest.t) :
  isCancellationRequested request (loadTimeline false sources options p)
  = isCancellationRequested request p.
Proof.
  destruct (loadTimeline_triggered false sources options p
              (TimelineRequest.tokenSource request)) as (Hfwd & Hbwd).
  destruct (isCancellationRequested request p) eqn:Hc.
  - by apply isCancellationRequested_triggered, Hfwd,
      isCancellationRequested_triggered.
  - apply not_true_iff_false. intros Hc'%isCancellationRequested_triggered.
    apply Hbwd, isCancellationRequested_triggered in Hc'; [congruence|done].
Qed.

(** X2: a triggered token stays triggered over [loadTimeline] and over
    [handleRequest]; [loadTimeline] without [reset] and [handleRequest]
    trigger none. *)
Theorem cancellation_is_permanent localeCompare (reset : bool)
    (sources : option (list string)) (options : TimelineOptions.t)
    (request completed : TimelineRequest.t) (outcome : Outcome) (p : TimelinePane) :
  (isCancellationRequested request p = true →
   isCancellationRequested request (loadTimeline reset sources options p) = true)
  ∧ isCancellationRequested request (loadTimeline false sources options p)
    = isCancellationRequested request p
  ∧ isCancellationRequested request (handleRequest localeCompare completed outcome p)
    = isCancellationRequested request p.
Proof.
  split; [|split].
  - rewrite !isCancellationRequested_triggered. apply loadTimeline_triggered.
  - apply loadTimeline_incremental.
  - unfold isCancellationRequested.
    by destruct (handleRequest_frame localeCompare completed outcome p) as (-> & _).
Qed.

(** What a full reset leaves, and what a load without resource does. *)
Lemma loadTimeline_full_reset (options : TimelineOptions.t) (p : TimelinePane) :
  let p' := loadTimeline true None options p in
  _items p' = [] ∧ _cursorsByProvider p' = ∅.
Proof.
  cbv zeta. rewrite loadTimeline_unfold. cbv zeta. simpl andb. cbv iota.
  set (q := set_pendingRequests ∅ _).
  destruct (loadTimeline_cleared_fields p) as (Hi & Hc & _). fold q in Hi, Hc.
  destruct (_uri p) as [u|]; [|done].
  destruct (cannotProvideTimeline u); [done|].
  destruct (bool_decide _); [done|].
  match goal with
  | |- context [foldl _ ?q0 ?l] =>
      destruct (loadTimeline_loop_frame true options InitialPageSize u l q0)
        as (-> & -> & _)
  end.
  change (_items (set_loadingMessageTimer (Some u) q)) with (_items q).
  rewrite Hi. done.
Qed.

Lemma loadTimeline_idle (reset : bool) (sources : option (list string))
    (options : TimelineOptions.t) (p : TimelinePane) :
  _uri p = None →
  let p' := loadTimeline reset sources options p in
  awaiting p' = awaiting p ∧ _message p' = _message p ∧ _tree p' = _tree p.
Proof.
  intros Hu. cbv zeta. rewrite loadTimeline_unfold. cbv zeta. rewrite Hu.
  destruct (_ && reset); [|done].
  destruct (loadTimeline_cleared_fields p)
    as (_ & _ & _ & _ & _ & _ & ? & ? & ? & _). done.
Qed.

(** X3: a full reset ([reset] with no sources given) leaves an empty list
    and an empty cursor store, whatever the resource in view. *)
Theorem loadTimeline_reset_clears (options : TimelineOptions.t) (p : TimelinePane) :
  let p' := loadTimeline true None options p in
  _items p' = [] ∧ _cursorsByProvider p' = ∅.
Proof. apply loadTimeline_full_reset. Qed.

(** X4: with no resource in view, or with no sources given and a resource
    of a scheme that cannot have a timeline, [loadTimeline] issues no
    request.  In the second case the message is the fixed one and the tree
    is emptied; in the first the message and the tree stay as they are. *)
Theorem loadTimeline_nothing_to_load (reset : bool)
    (sources : option (list string)) (options : TimelineOptions.t)
    (p : TimelinePane) :
  let p' := loadTimeline reset sources options p in
  (_uri p = None →
     awaiting p' = awaiting p ∧ _message p' = _message p ∧ _tree p' = _tree p)
  ∧ (∀ u, _uri p = Some u → cannotProvideTimeline u = true → sources = None →
       awaiting p' = awaiting p
       ∧ _message p' = Some editorCannotProvideTimeline
       ∧ _tree p' = None).
Proof.
  cbv zeta. rewrite loadTimeline_unfold. cbv zeta.
  set (q := if _ && reset then _ else p).
  assert (awaiting q = awaiting p ∧ _message q = _message p ∧ _tree q = _tree p)
    as (Ha & Hm & Ht).
  { subst q. destruct (_ && reset); [|done].
    destruct (loadTimeline_cleared_fields p)
      as (_ & _ & _ & _ & _ & _ & ? & ? & ? & _). done. }
  split.
  - intros ->. done.
  - intros u -> -> ->. simpl. done.
Qed.

(** The list and the cursors over a load that is not a full reset. *)
Lemma loadTimeline_partial (reset : bool) (sources : option (list string))
    (options : TimelineOptions.t) (p : TimelinePane) :
  reset = false ∨ sources ≠ None →
  let p' := loadTimeline reset sources options p in
  _cursorsByProvider p' = _cursorsByProvider p
  ∧ (_items p' = _items p
     ∨ (isLoadMoreCommandItem (last (_items p)) = true
        ∧ _items p' = alter (setThemeIcon (Some "sync~spin"))
                        (length (_items p) - 1)%nat (_items p))).
Proof.
  intros Hkind. cbv zeta. rewrite loadTimeline_unfold. cbv zeta.
  assert ((match sources with None => true | Some _ => false end) && reset = false)
    as ->.
  { destruct Hkind as [->|Hs]; [apply andb_false_r|]. by destruct sources. }
  destruct (_uri p) as [u|]; [|auto].
  destruct (_ && cannotProvideTimeline u); [auto|].
  destruct (bool_decide _); [destruct reset; auto|].
  match goal with
  | |- context [foldl _ ?q0 ?l] =>
      destruct (loadTimeline_loop_frame reset options
                  (if reset then InitialPageSize else SubsequentPageSize) u l q0)
        as (-> & -> & _)
  end.
  replace (_items p !! (length (_items p) - 1)%nat) with (last (_items p))
    by (rewrite last_lookup; f_equal; lia).
  destruct (isLoadMoreCommandItem (last (_items p))); auto.
Qed.

(** X5: unless it is a full reset, [loadTimeline] neither adds nor removes
    nor moves an entry of the list and keeps the cursors: the one thing it
    may do to the list is to put the busy icon on a load-more element at
    the tail. *)
Theorem loadTimeline_keeps_list (reset : bool) (sources : option (list string))
    (options : TimelineOptions.t) (p : TimelinePane) :
  reset = false ∨ sources ≠ None →
  let p' := loadTimeline reset sources options p in
  _cursorsByProvider p' = _cursorsByProvider p
  ∧ (_items p' = _items p
     ∨ (isLoadMoreCommandItem (last (_items p)) = true
        ∧ _items p' = alter (setThemeIcon (Some "sync~spin"))
                        (length (_items p) - 1)%nat (_items p))).
Proof. apply loadTimeline_partial. Qed.

(** X6: once the editor has gone to another resource, the completion of a
    request issued for the old resource changes neither the list nor the
    cursors nor the message, whatever the request brings. *)
Theorem resource_switch_discards_completions localeCompare
    (uri : option URI.t) (request : TimelineRequest.t) (outcome : Outcome)
    (p : TimelinePane) :
  (∀ u, uri = Some u → URI.ref (TimelineRequest.uri request) ≠ URI.ref u) →
  let p' := activeEditorChanged uri p in
  let p'' := handleRequest localeCompare request outcome p' in
  _uri p' = uri
  ∧ _items p'' = _items p'
  ∧ _cursorsByProvider p'' = _cursorsByProvider p'
  ∧ _message p'' = _message p'.
Proof.
  intros Hother. cbv zeta. unfold activeEditorChanged.
  destruct (loadTimeline_frame true None (TimelineOptions.mk None None None)
              (set_uri uri p)) as (Huri & _).
  simpl in Huri. split; [exact Huri|].
  rewrite handleRequest_returns_early; [done|].
  right. right. right. unfold uriDiffers. rewrite Huri.
  destruct uri as [u|]; [|done].
  apply negb_true_iff, bool_decide_eq_false. by apply Hother.
Qed.

(** The pending requests after a completion. *)
Lemma handleRequest_pending localeCompare (request : TimelineRequest.t)
    (outcome : Outcome) (p : TimelinePane) :
  _pendingRequests (handleRequest localeCompare request outcome p)
  = delete (TimelineRequest.source request) (_pendingRequests p).
Proof.
  destruct outcome as [[timeline|]|];
    [|rewrite handleRequest_returns_early by auto; done..].
  destruct (isCancellationRequested request p) eqn:Hc;
    [rewrite handleRequest_returns_early by auto; done|].
  destruct (uriDiffers request p) eqn:Hu;
    [rewrite handleRequest_returns_early by auto; done|].
  destruct (applyPage localeCompare request (Timeline.items timeline) (_items p)).1
    eqn:Hchanged.
  - by destruct (handleRequest_changed localeCompare request timeline p Hc Hu Hchanged)
      as (_ & -> & _).
  - unfold handleRequest. cbv zeta.
    change (isCancellationRequested request _)
      with (isCancellationRequested request p).
    change (uriDiffers request _) with (uriDiffers request p).
    rewrite Hc, Hu.
    change (_items (set_cursorsByProvider _ _)) with (_items p).
    destruct (applyPage localeCompare request (Timeline.items timeline) (_items p))
      as [changed l].
    simpl in Hchanged. subst changed. simpl negb. cbv iota.
    destruct (_ && _); done.
Qed.

(** X7: whatever the request brings, and stale or not, [handleRequest]
    takes the entry of the request's source out of the pending requests
    and leaves the entries of the other sources. *)
Theorem handleRequest_clears_pending localeCompare (request : TimelineRequest.t)
    (outcome : Outcome) (p : TimelinePane) :
  _pendingRequests (handleRequest localeCompare request outcome p)
  = delete (TimelineRequest.source request) (_pendingRequests p).
Proof. apply handleRequest_pending. Qed.

(** ** Completions and the view *)

(** [updateLoadMore] leaves the view alone. *)
Lemma updateLoadMore_view (timeline : Timeline.t) (p : TimelinePane) :
  _tree (updateLoadMore timeline p) = _tree p
  ∧ _message (updateLoadMore timeline p) = _message p
  ∧ refreshDebouncedArmed (updateLoadMore timeline p) = refreshDebouncedArmed p.
Proof.
  unfold updateLoadMore.
  destruct (_ && _); [|done].
  destruct (_ || _); destruct (isLoadMoreCommandItem _); done.
Qed.

(** When no change is reported the list is the one given. *)
Lemma applyPage_unchanged localeCompare (request : TimelineRequest.t)
    (items l : list TreeElement.t) :
  (applyPage localeCompare request items l).1 = false →
  (applyPage localeCompare request items l).2 = l.
Proof.
  unfold applyPage. destruct (truthyCursor _).
  - by destruct items.
  - destruct items as [|item items]; [|done].
    rewrite replaceItems_nothing_incoming by done. simpl.
    intros Hs. by apply withoutSource_unchanged.
Qed.

(** A completion that is not stale and whose page changed nothing. *)
Lemma handleRequest_unchanged_eq localeCompare (request : TimelineRequest.t)
    (timeline : Timeline.t) (p : TimelinePane) :
  isCancellationRequested request p = false →
  uriDiffers request p = false →
  (applyPage localeCompare request (Timeline.items timeline) (_items p)).1 = false →
  handleRequest localeCompare request (Resolved (Some timeline)) p
  = let q :=
      set_items (_items p)
        (set_cursorsByProvider
           (recordPage (TimelineRequest.source request) timeline
              (TimelineRequest.options request) (_cursorsByProvider p))
           (set_pendingRequests
              (delete (TimelineRequest.source request) (_pendingRequests p))
              (set_awaiting (resume request (awaiting p)) p))) in
    if bool_decide (length (_items p) = 0%nat)
       && bool_decide
            (size (delete (TimelineRequest.source request) (_pendingRequests p))
             = 0%nat)
    then refresh q
    else q.
Proof.
  intros Hc Hu Hchanged.
  pose proof (applyPage_unchanged _ _ _ _ Hchanged) as Hl.
  unfold handleRequest. cbv zeta.
  change (isCancellationRequested request _)
    with (isCancellationRequested request p).
  change (uriDiffers request _) with (uriDiffers request p).
  rewrite Hc, Hu.
  change (_items (set_cursorsByProvider _ _)) with (_items p).
  destruct (applyPage localeCompare request (Timeline.items timeline) (_items p))
    as [changed l].
  simpl in Hchanged, Hl. subst changed l. reflexivity.
Qed.

(** X8: when a page that is not stale changed the list, the view is
    refreshed at once if the list was empty before or no other request is
    pending: the tree gets the list, the message is the no-timeline one
    for an empty list and none otherwise, and the loading timer is
    cleared.  If the list had entries and another request is pending, the
    tree and the message stay and the debounce is started. *)
Theorem handleRequest_refresh_policy localeCompare
    (request : TimelineRequest.t) (timeline : Timeline.t) (p : TimelinePane) :
  isCancellationRequested request p = false →
  uriDiffers request p = false →
  (applyPage localeCompare request (Timeline.items timeline) (_items p)).1 = true →
  let p' := handleRequest localeCompare request (Resolved (Some timeline)) p in
  let others := delete (TimelineRequest.source request) (_pendingRequests p) in
  (_items p = [] ∨ size others = 0%nat →
     _tree p' = Some (_items p')
     ∧ _message p'
       = (if bool_decide (length (_items p') = 0%nat)
          then Some noTimelineInfo else None)
     ∧ _loadingMessageTimer p' = None
     ∧ refreshDebouncedArmed p' = refreshDebouncedArmed p)
  ∧ (_items p ≠ [] → size others ≠ 0%nat →
       _tree p' = _tree p
       ∧ _message p' = _message p
       ∧ refreshDebouncedArmed p' = true).
Proof.
  intros Hc Hu Hchanged. cbv zeta.
  rewrite handleRequest_changed_eq by done. cbv zeta.
  match goal with
  | |- context [updateLoadMore timeline ?q] =>
      destruct (updateLoadMore_frame timeline q) as [_ Hpen];
      destruct (updateLoadMore_view timeline q) as (Htree & Hmsg & Harmed);
      revert Hpen Htree Hmsg Harmed; generalize (updateLoadMore timeline q)
  end.
  intros q Hpen Htree Hmsg Harmed. simpl in Hpen, Htree, Hmsg, Harmed.
  rewrite Hpen. split.
  - intros Hnow.
    assert (negb (bool_decide (length (_items p) = 0%nat))
            && negb (bool_decide
                       (size (delete (TimelineRequest.source request)
                                (_pendingRequests p)) = 0%nat)) = false) as ->.
    { destruct Hnow as [->| ->]; [done|]. apply andb_false_r. }
    done.
  - intros Hitems Hothers.
    rewrite (bool_decide_eq_false_2 (size _ = 0%nat)) by done.
    rewrite bool_decide_eq_false_2 by (by destruct (_items p)).
    done.
Qed.

(** X9: when a page that is not stale changed nothing, the list stays as
    it is and the page's cursors are recorded all the same.  If the list
    is empty and no other request is pending, the view is refreshed and
    shows the no-timeline message; otherwise the tree and the message
    stay. *)
Theorem handleRequest_nothing_new localeCompare
    (request : TimelineRequest.t) (timeline : Timeline.t) (p : TimelinePane) :
  isCancellationRequested request p = false →
  uriDiffers request p = false →
  (applyPage localeCompare request (Timeline.items timeline) (_items p)).1 = false →
  let p' := handleRequest localeCompare request (Resolved (Some timeline)) p in
  let others := delete (TimelineRequest.source request) (_pendingRequests p) in
  _items p' = _items p
  ∧ _cursorsByProvider p'
    = recordPage (TimelineRequest.source request) timeline
        (TimelineRequest.options request) (_cursorsByProvider p)
  ∧ (_items p = [] → size others = 0%nat →
       _tree p' = Some [] ∧ _message p' = Some noTimelineInfo)
  ∧ (_items p ≠ [] ∨ size others ≠ 0%nat →
       _tree p' = _tree p ∧ _message p' = _message p).
Proof.
  intros Hc Hu Hchanged. cbv zeta.
  rewrite handleRequest_unchanged_eq by done. cbv zeta.
  split; [by destruct (_ && _)|]. split; [by destruct (_ && _)|]. split.
  - intros Hitems Hothers. rewrite Hitems, Hothers. done.
  - intros Hnot.
    assert (bool_decide (length (_items p) = 0%nat)
            && bool_decide
                 (size (delete (TimelineRequest.source request)
                          (_pendingRequests p)) = 0%nat) = false) as ->; [|done].
    destruct Hnot as [Hitems|Hothers].
    + rewrite bool_decide_eq_false_2 by (by destruct (_items p)). done.
    + rewrite (bool_decide_eq_false_2 (size _ = 0%nat)) by done. apply andb_false_r.
Qed.

(** An entry that is not the load-more element stays over [updateLoadMore]. *)
Lemma updateLoadMore_keeps (timeline : Timeline.t) (p : TimelinePane)
    (e : TreeElement.t) :
  e ∈ _items p →
  TreeElement.handle e ≠ "vscode-command:loadMore" →
  e ∈ _items (updateLoadMore timeline p).
Proof.
  intros He Hh. unfold updateLoadMore.
  destruct (_ && _); [|done].
  replace (_items p !! (length (_items p) - 1)%nat) with (last (_items p))
    by (rewrite last_lookup; f_equal; lia).
  destruct (last (_items p)) as [x|] eqn:Hlast; simpl.
  - apply last_Some in Hlast as [l' Hl']. rewrite Hl' in He |- *.
    assert (TreeElement.handle x = "vscode-command:loadMore" → e ∈ l') as Hin.
    { intros Hx. apply elem_of_app in He as [?|Hex]; [done|].
      apply list_elem_of_singleton in Hex. congruence. }
    destruct (_ || _); case_bool_decide; simpl; rewrite ?Hl'.
    + rewrite alter_last. apply elem_of_app. left. auto.
    + apply elem_of_app. by left.
    + rewrite delete_last. auto.
    + done.
  - destruct (_ || _); simpl; [|done]. apply elem_of_app. by left.
Qed.

(** X10: whatever the request brings, [handleRequest] keeps every entry of
    the list that is not the load-more element and that either belongs to
    another source than the request's or meets a page asked for with a
    cursor (which is merged). *)
Theorem handleRequest_keeps_other_entries localeCompare
    (request : TimelineRequest.t) (outcome : Outcome) (p : TimelinePane)
    (e : TreeElement.t) :
  e ∈ _items p →
  TreeElement.handle e ≠ "vscode-command:loadMore" →
  TreeElement.source e ≠ Some (TimelineRequest.source request)
  ∨ truthyCursor (TimelineOptions.cursor (TimelineRequest.options request)) = true →
  e ∈ _items (handleRequest localeCompare request outcome p).
Proof.
  intros He Hh Hother.
  destruct outcome as [[timeline|]|];
    [|rewrite handleRequest_returns_early by auto; done..].
  destruct (isCancellationRequested request p) eqn:Hc;
    [rewrite handleRequest_returns_early by auto; done|].
  destruct (uriDiffers request p) eqn:Hu;
    [rewrite handleRequest_returns_early by auto; done|].
  destruct (applyPage localeCompare request (Timeline.items timeline) (_items p)).1
    eqn:Hchanged.
  - destruct (handleRequest_changed localeCompare request timeline p Hc Hu Hchanged)
      as (_ & _ & ->).
    apply updateLoadMore_keeps; [|done]. simpl.
    unfold applyPage. destruct (truthyCursor _) eqn:Hcursor.
    + rewrite mergeItems_Permutation. apply elem_of_app. by right.
    + rewrite replaceItems_Permutation. apply elem_of_app. left.
      apply list_elem_of_filter. split; [|done]. by destruct Hother.
  - rewrite handleRequest_unchanged_eq by done. cbv zeta.
    by destruct (_ && _).
Qed.

(** ** Providers *)

Lemma withoutSource_filter (source : string) (rs : list string)
    (l : list TreeElement.t) :
  filter (λ e, TreeElement.source e ∉ Some <$> rs) (withoutSource source l)
  = filter (λ e, TreeElement.source e ∉ Some <$> (source :: rs)) l.
Proof.
  unfold withoutSource. rewrite list_filter_filter. apply list_filter_iff.
  intros e. rewrite fmap_cons, not_elem_of_cons. tauto.
Qed.

(** X11: when providers are removed, the entries of their sources leave the
    list and the other entries stay in their order; the cursors, the
    pending requests, the tree and the message are not touched and no
    request is issued. *)
Theorem onProvidersChanged_removed localeCompare (removed : list string)
    (p : TimelinePane) :
  let p' := onProvidersChanged localeCompare (Some removed) None p in
  _items p' = filter (λ e, TreeElement.source e ∉ Some <$> removed) (_items p)
  ∧ _cursorsByProvider p' = _cursorsByProvider p
  ∧ _pendingRequests p' = _pendingRequests p
  ∧ awaiting p' = awaiting p
  ∧ _tree p' = _tree p
  ∧ _message p' = _message p.
Proof.
  cbv zeta. unfold onProvidersChanged.
  revert p. induction removed as [|s rs IH]; intros p.
  { split; [|done]. simpl. induction (_items p) as [|e l IHl]; [done|].
    rewrite filter_cons_True by apply not_elem_of_nil. by f_equal. }
  specialize (IH (set_items (replaceItems localeCompare s None (_items p)).2 p)).
  destruct IH as (Hitems & Hrest).
  split; [|exact Hrest].
  etrans; [exact Hitems|].
  rewrite replaceItems_nothing_incoming by done. apply withoutSource_filter.
Qed.

(** ** Cursors of the next request *)

(** X12: the cursor of an incremental request comes from the page recorded
    last.  After a first page or a page in the before direction, the next
    request in the before direction carries the [before] cursor of that
    page; after a first page or a page in the other direction, the next
    request in the other direction carries its [after] cursor. *)
Theorem requestCursor_of_recorded_page (source : string) (timeline : Timeline.t)
    (options given : TimelineOptions.t) (m : gmap string TimelineCursors.t)
    (paging : Paging.t) :
  Timeline.paging timeline = Some paging →
  TimelineOptions.cursor given = None →
  let cursors := recordPage source timeline options m !! Timeline.source timeline in
  (m !! Timeline.source timeline = None
   ∨ truthy (TimelineOptions.before options) = true →
   truthy (TimelineOptions.before given) = true →
   requestCursor cursors given = Cursors.before (Paging.cursors paging))
  ∧ (m !! Timeline.source timeline = None
     ∨ truthy (TimelineOptions.before options) = false →
     truthy (TimelineOptions.before given) = false →
     requestCursor cursors given = Cursors.after (Paging.cursors paging)).
Proof.
  intros Hpaging Hgiven. cbv zeta. unfold recordPage, requestCursor.
  rewrite Hpaging, Hgiven.
  destruct (m !! Timeline.source timeline) as [c|] eqn:Hm.
  - split; (intros [?| ->]; [done|]); intros ->; by rewrite lookup_insert_eq.
  - split; intros _ ->; by rewrite lookup_insert_eq.
Qed.

(** ** Kinds of element *)

(** X13: an element is never both the load-more element and a timeline
    item; [undefined] counts as a timeline item and not as the load-more
    element. *)
Theorem isTimelineItem_excludes_loadMore (item : option TreeElement.t) :
  (isLoadMoreCommandItem item = true → isTimelineItem item = false)
  ∧ (isTimelineItem item = true → isLoadMoreCommandItem item = false)
  ∧ isTimelineItem None = true
  ∧ isLoadMoreCommandItem None = false.
Proof.
  assert (isLoadMoreCommandItem item = true → isTimelineItem item = false) as H.
  { destruct item as [e|]; simpl; [|done].
    intros ->%bool_decide_eq_true. reflexivity. }
  split; [exact H|]. split; [|done].
  destruct (isLoadMoreCommandItem item); [|done].
  intros Ht. rewrite H in Ht; done.
Qed.

(** ** Sorting and merging *)

Lemma arraySort_sorted_fixed {A} (cmp : A → A → Z) (l : list A) :
  StronglySorted (λ a b, (cmp a b ≤ 0)%Z) l → arraySort cmp l = l.
Proof.
  induction 1 as [|x l Hs IH Hall]; simpl; [done|].
  fold (arraySort cmp l). rewrite IH.
  destruct l as [|y l]; simpl; [done|].
  apply Forall_cons in Hall as [Hxy _]. by rewrite decide_True.
Qed.

(** X14: [sortItems] leaves a sorted list as it is: entries that compare
    equal keep their places. *)
Theorem sortItems_sorted_fixed localeCompare (l : list TreeElement.t) :
  itemsSorted localeCompare l → sortItems localeCompare l = l.
Proof. apply arraySort_sorted_fixed. Qed.

(** X15: a merge loses nothing and invents nothing: in either direction the
    list afterwards is a rearrangement of the incoming items and the list
    before, so its length is the sum of theirs. *)
Theorem mergeItems_conserves localeCompare (source : string)
    (items : option (list TreeElement.t)) (options : TimelineOptions.t)
    (l : list TreeElement.t) :
  (mergeItems localeCompare source items options l).2 ≡ₚ default [] items ++ l
  ∧ length (mergeItems localeCompare source items options l).2
    = (length (default [] items) + length l)%nat.
Proof.
  split; [apply mergeItems_Permutation|].
  by rewrite mergeItems_Permutation, length_app.
Qed.

(** ** Handlers *)

(** X16: [onReset] and a change of the excluded sources empty the list and
    the cursor store; the requests they issue go to sources that are not
    excluded (for a change of the setting: not in the new value), and
    carry no cursor, so that the page of each will replace what its
    source had, not be merged. *)
Theorem reset_handlers_replace localeCompare (excludeSources : list string)
    (p : TimelinePane) :
  onConfigurationChanged false excludeSources p = p
  ∧ (let p' := onConfigurationChanged true excludeSources p in
     _items p' = [] ∧ _cursorsByProvider p' = ∅
     ∧ ∃ new, awaiting p' = awaiting p ++ new
         ∧ ∀ r, r ∈ new →
             (TimelineRequest.source r ∉ excludeSources)
             ∧ ∀ items l,
                 applyPage localeCompare r items l
                 = replaceItems localeCompare (TimelineRequest.source r)
                     (Some items) l)
  ∧ (let p' := onReset p in
     _items p' = [] ∧ _cursorsByProvider p' = ∅
     ∧ ∃ new, awaiting p' = awaiting p ++ new
         ∧ ∀ r, r ∈ new →
             (TimelineRequest.source r ∉ _excludedSources p)
             ∧ ∀ items l,
                 applyPage localeCompare r items l
                 = replaceItems localeCompare (TimelineRequest.source r)
                     (Some items) l).
Proof.
  split; [done|]. split.
  - cbv zeta. unfold onConfigurationChanged. simpl negb. cbv iota.
    destruct (loadTimeline_full_reset (TimelineOptions.mk None None None)
                (set_excludedSources (list_to_set excludeSources) p)) as (-> & ->).
    split; [done|]. split; [done|].
    destruct (loadTimeline_issues true None (TimelineOptions.mk None None None)
                (set_excludedSources (list_to_set excludeSources) p))
      as (new & Hnew & Hall).
    exists new. split; [exact Hnew|].
    intros r Hr. destruct (Hall r Hr) as (Hex & _ & _ & _ & _ & Hcursor & _).
    split; [by rewrite <- (elem_of_list_to_set (C := gset string))|].
    intros items l. unfold applyPage. by rewrite (Hcursor eq_refl).
  - cbv zeta. unfold onReset.
    destruct (loadTimeline_full_reset (TimelineOptions.mk None None None) p)
      as (-> & ->).
    split; [done|]. split; [done|].
    destruct (loadTimeline_issues true None (TimelineOptions.mk None None None) p)
      as (new & Hnew & Hall).
    exists new. split; [exact Hnew|].
    intros r Hr. destruct (Hall r Hr) as (Hex & _ & _ & _ & _ & Hcursor & _).
    split; [done|].
    intros items l. unfold applyPage. by rewrite (Hcursor eq_refl).
Qed.

(** X17: opening the load-more element while it is busy does nothing.
    Otherwise no token is triggered, the cursors stay, and the requests
    issued go to sources that are not excluded and whose cursors say that
    more exists; each asks for at most [SubsequentPageSize] entries after
    the newest [after] cursor kept for its source. *)
Theorem loadMoreOpened_requests (item : TreeElement.t) (p : TimelinePane) :
  (TreeElement.themeIcon item ≠ None → loadMoreOpened item p = p)
  ∧ (TreeElement.themeIcon item = None →
     let p' := loadMoreOpened item p in
     (∀ request, isCancellationRequested request p'
                 = isCancellationRequested request p)
     ∧ _cursorsByProvider p' = _cursorsByProvider p
     ∧ ∃ new, awaiting p' = awaiting p ++ new
         ∧ ∀ r, r ∈ new →
             (TimelineRequest.source r ∉ _excludedSources p)
             ∧ ∃ c, _cursorsByProvider p !! TimelineRequest.source r = Some c
                 ∧ TimelineCursors.more c = true
                 ∧ TimelineRequest.options r
                   = TimelineOptions.mk
                       (match TimelineCursors.endCursors c with
                        | Some e => Cursors.after e
                        | None => TimelineCursors.startCursors c ≫= Cursors.after
                        end)
                       None (Some (LimitCount 40))).
Proof.
  unfold loadMoreOpened. split.
  - intros Hbusy. by rewrite bool_decide_eq_true_2.
  - intros Hidle. rewrite bool_decide_eq_false_2 by (by intros []).
    cbv zeta. split; [intros request; apply loadTimeline_incremental|].
    split.
    { by destruct (loadTimeline_partial false None
                     (TimelineOptions.mk None None None) p) as (-> & _); [left|]. }
    destruct (loadTimeline_issues false None (TimelineOptions.mk None None None) p)
      as (new & Hnew & Hall).
    exists new. split; [exact Hnew|].
    intros r Hr. destruct (Hall r Hr) as (Hex & _ & _ & _ & _ & _ & Hinc).
    destruct (Hinc eq_refl) as (Hmore & Hopts).
    split; [done|].
    destruct (_cursorsByProvider p !! TimelineRequest.source r) as [c|];
      [|done].
    exists c. split; [done|]. simpl in Hmore. split; [congruence|].
    rewrite Hopts. unfold requestCursor. simpl.
    by destruct (TimelineCursors.endCursors c).
Qed.

(** X18: the editor comes to show the resource in view again, or a [file]
    or [git] resource of the same path as the [file] or [git] resource in
    view: nothing happens.  The editor has no resource any more: the list
    and the cursors are emptied and no request is issued, but the tree and
    the message are left as they were. *)
Theorem onActiveEditorChanged_cases (uriToString : URI.t → string)
    (uri : option URI.t) (p : TimelinePane) :
  (∀ u, uri = Some u → (uriToString <$> _uri p) = Some (uriToString u) →
     onActiveEditorChanged uriToString uri p = p)
  ∧ (∀ u v, uri = Some u → _uri p = Some v →
       URI.fsPath u = URI.fsPath v →
       fileOrGit (Some u) = true → fileOrGit (Some v) = true →
       onActiveEditorChanged uriToString uri p = p)
  ∧ (uri = None →
     let p' := onActiveEditorChanged uriToString uri p in
     _uri p' = None ∧ _items p' = [] ∧ _cursorsByProvider p' = ∅
     ∧ awaiting p' = awaiting p ∧ _tree p' = _tree p ∧ _message p' = _message p).
Proof.
  unfold onActiveEditorChanged. split; [|split].
  - intros u -> Hsame. rewrite Hsame. simpl fmap.
    rewrite (bool_decide_eq_true_2 (Some (uriToString u) = _)) by done.
    by rewrite (bool_decide_eq_true_2 (Some u ≠ None)).
  - intros u v -> Hv Hpath Hu Hv'. rewrite Hv. simpl fmap. rewrite Hpath, Hu, Hv'.
    rewrite (bool_decide_eq_true_2 (Some (URI.fsPath v) = _)) by done.
    by rewrite orb_true_r.
  - intros ->. cbv zeta. simpl fmap.
    rewrite (bool_decide_eq_false_2 (None ≠ None)) by (by intros []).
    rewrite andb_false_r. simpl fileOrGit. rewrite andb_false_r. simpl orb.
    cbv iota. unfold activeEditorChanged.
    destruct (loadTimeline_frame true None (TimelineOptions.mk None None None)
                (set_uri None p)) as (-> & _).
    destruct (loadTimeline_full_reset (TimelineOptions.mk None None None)
                (set_uri None p)) as (-> & ->).
    destruct (loadTimeline_idle true None (TimelineOptions.mk None None None)
                (set_uri None p) eq_refl) as (-> & -> & ->).
    done.
Qed.

(** X19: a change event that names the resource in view is ignored.  An
    event without resource and without [reset] that names a source leaves
    the cursors, triggers no token, and issues at most requests for that
    source, in the before direction, from the [before] cursor of the
    oldest page kept, if the cursors of the source say that more exists. *)
Theorem onTimelineChanged_cases (uriToString : URI.t → string)
    (e : TimelineChangeEvent.t) (p : TimelinePane) :
  (∀ u, TimelineChangeEvent.uri e = Some u →
     (uriToString <$> _uri p) = Some (uriToString u) →
     onTimelineChanged uriToString e p = p)
  ∧ (∀ s, TimelineChangeEvent.uri e = None →
       TimelineChangeEvent.id e = Some s →
       truthy (TimelineChangeEvent.reset e) = false →
       let p' := onTimelineChanged uriToString e p in
       _cursorsByProvider p' = _cursorsByProvider p
       ∧ (∀ request, isCancellationRequested request p'
                     = isCancellationRequested request p)
       ∧ ∃ new, awaiting p' = awaiting p ++ new
           ∧ ∀ r, r ∈ new →
               TimelineRequest.source r = s
               ∧ ∃ c, _cursorsByProvider p !! s = Some c
                   ∧ TimelineCursors.more c = true
                   ∧ TimelineRequest.options r
                     = TimelineOptions.mk
                         (TimelineCursors.startCursors c ≫= Cursors.before)
                         (Some true) (Some (LimitCount 40))).
Proof.
  unfold onTimelineChanged. split.
  - intros u -> Hsame. rewrite Hsame. by rewrite bool_decide_eq_true_2.
  - intros s -> -> Hreset. cbv zeta.
    assert (default false (TimelineChangeEvent.reset e) = false) as -> by exact Hreset.
    rewrite Hreset. simpl negb.
    set (options := TimelineOptions.mk None (Some true) None).
    split.
    { by destruct (loadTimeline_partial false (Some [s]) options p)
        as (-> & _); [left|]. }
    split; [intros request; apply loadTimeline_incremental|].
    destruct (loadTimeline_issues false (Some [s]) options p) as (new & Hnew & Hall).
    exists new. split; [exact Hnew|].
    intros r Hr. destruct (Hall r Hr) as (_ & Hin & _ & _ & _ & _ & Hinc).
    destruct (Hinc eq_refl) as (Hmore & Hopts).
    apply list_elem_of_singleton in Hin. rewrite Hin in *.
    split; [done|].
    destruct (_cursorsByProvider p !! s) as [c|]; [|done].
    exists c. split; [done|]. simpl in Hmore. split; [congruence|].
    rewrite Hopts. done.
Qed.
Ltac pane_fields :=
  cbn [_pendingRequests tokenSources awaiting timelineSources _items
       _cursorsByProvider _uri _excludedSources _message _tree
       set_awaiting set_tokenSources set_pendingRequests set_items
       set_cursorsByProvider] in *.

Lemma loadTimeline_source_reset_fresh (options : TimelineOptions.t)
    (defaultPageSize : nat) (u : URI.t) (source : string) (p : TimelinePane) :
  freshlyIssued u p →
  source ∈ timelineSources p →
  let p' := loadTimeline_source true options defaultPageSize u source p in
  freshlyIssued u p'
  ∧ ∀ k, is_Some (_pendingRequests p' !! k)
         ↔ is_Some (_pendingRequests p !! k) ∨ k = source.
Proof.
  intros [Hfresh Hdistinct] Hprovider. cbv zeta.
  unfold loadTimeline_source, getTimeline, newCancellationTokenSource,
    handleRequest_await, onCancellationRequested. simpl negb. cbv iota.
  destruct (_pendingRequests p !! source) as [r0|] eqn:Hr0.
  - destruct (Hfresh _ _ Hr0) as (Hs0 & Hu0 & Ha0 & Ht0).
    unfold cancelTokenSource. rewrite Ht0. simpl.
    rewrite length_insert. rewrite (bool_decide_eq_true_2 _ Hprovider). simpl.
    pose proof (lookup_lt_Some _ _ _ Ht0) as Hlt0.
    split; [split|]; pane_fields.
    + intros k r. destruct (decide (k = source)) as [->|Hne].
      * rewrite lookup_insert_eq. intros [= <-]. simpl.
        split; [done|]. split; [done|].
        split; [apply elem_of_app; right; apply list_elem_of_here|].
        rewrite list_lookup_alter_eq, lookup_app_r by (rewrite length_insert; lia).
        rewrite length_insert, Nat.sub_diag. done.
      * rewrite lookup_insert_ne, lookup_delete_ne by done. intros Hr.
        destruct (Hfresh _ _ Hr) as (? & ? & ? & Ht).
        split; [done|]. split; [done|].
        split; [apply elem_of_app; by left|].
        pose proof (lookup_lt_Some _ _ _ Ht) as Hlt.
        rewrite list_lookup_alter_ne by lia.
        rewrite lookup_app_l by (rewrite length_insert; lia).
        rewrite list_lookup_insert_ne; [done|].
        intros Heq. apply Hne. symmetry. by eapply Hdistinct.
    + intros k k' r r'.
      destruct (decide (k = source)) as [->|Hne];
        destruct (decide (k' = source)) as [->|Hne']; [done|..].
      * rewrite lookup_insert_eq, lookup_insert_ne, lookup_delete_ne by done.
        intros [= <-] Hr' Heq. simpl in Heq.
        destruct (Hfresh _ _ Hr') as (_ & _ & _ & Ht).
        apply lookup_lt_Some in Ht. lia.
      * rewrite lookup_insert_eq, lookup_insert_ne, lookup_delete_ne by done.
        intros Hr [= <-] Heq. simpl in Heq.
        destruct (Hfresh _ _ Hr) as (_ & _ & _ & Ht).
        apply lookup_lt_Some in Ht. lia.
      * rewrite !lookup_insert_ne, !lookup_delete_ne by done. apply Hdistinct.
    + intros k. destruct (decide (k = source)) as [->|Hne].
      * rewrite lookup_insert_eq. split; eauto.
      * rewrite lookup_insert_ne, lookup_delete_ne by done. split; [by left | by intros [?|?]].
  - simpl. rewrite (bool_decide_eq_true_2 _ Hprovider). simpl.
    split; [split|]; pane_fields.
    + intros k r. destruct (decide (k = source)) as [->|Hne].
      * rewrite lookup_insert_eq. intros [= <-]. simpl.
        split; [done|]. split; [done|].
        split; [apply elem_of_app; right; apply list_elem_of_here|].
        rewrite list_lookup_alter_eq, lookup_app_r by lia.
        rewrite Nat.sub_diag. done.
      * rewrite lookup_insert_ne by done. intros Hr.
        destruct (Hfresh _ _ Hr) as (? & ? & ? & Ht).
        split; [done|]. split; [done|].
        split; [apply elem_of_app; by left|].
        pose proof (lookup_lt_Some _ _ _ Ht) as Hlt.
        rewrite list_lookup_alter_ne by lia.
        by rewrite lookup_app_l by lia.
    + intros k k' r r'.
      destruct (decide (k = source)) as [->|Hne];
        destruct (decide (k' = source)) as [->|Hne']; [done|..].
      * rewrite lookup_insert_eq, lookup_insert_ne by done.
        intros [= <-] Hr' Heq. simpl in Heq.
        destruct (Hfresh _ _ Hr') as (_ & _ & _ & Ht).
        apply lookup_lt_Some in Ht. lia.
      * rewrite lookup_insert_eq, lookup_insert_ne by done.
        intros Hr [= <-] Heq. simpl in Heq.
        destruct (Hfresh _ _ Hr) as (_ & _ & _ & Ht).
        apply lookup_lt_Some in Ht. lia.
      * rewrite !lookup_insert_ne by done. apply Hdistinct.
    + intros k. destruct (decide (k = source)) as [->|Hne].
      * rewrite lookup_insert_eq. split; eauto.
      * rewrite lookup_insert_ne by done. split; [by left | by intros [?|?]].
Qed.

Lemma loadTimeline_loop_reset_fresh (options : TimelineOptions.t)
    (defaultPageSize : nat) (u : URI.t) (sources : list string)
    (p : TimelinePane) :
  freshlyIssued u p →
  (∀ s, s ∈ sources → s ∈ timelineSources p) →
  let p' := foldl (λ p source,
                     loadTimeline_source true options defaultPageSize u source p)
              p sources in
  freshlyIssued u p'
  ∧ ∀ k, is_Some (_pendingRequests p' !! k)
         ↔ is_Some (_pendingRequests p !! k) ∨ k ∈ sources.
Proof.
  cbv zeta. revert p. induction sources as [|s sources IH]; intros p Hfresh Hprov.
  { split; [done|]. intros k. rewrite elem_of_nil. tauto. }
  destruct (loadTimeline_source_reset_fresh options defaultPageSize u s p Hfresh)
    as (Hfresh1 & Hdom1); [apply Hprov, list_elem_of_here|].
  specialize (IH (loadTimeline_source true options defaultPageSize u s p) Hfresh1).
  destruct IH as (Hfresh2 & Hdom2).
  { intros s' Hs'.
    destruct (loadTimeline_source_frame true options defaultPageSize u s p)
      as (_ & _ & _ & _ & -> & _).
    by apply Hprov, list_elem_of_further. }
  split; [exact Hfresh2|].
  intros k. etrans; [apply Hdom2|]. rewrite Hdom1, elem_of_cons. tauto.
Qed.

(** X20: after a full reset for a resource that can have a timeline, the
    pending requests are exactly one for each source of the service that
    is not excluded; each is kept under its source, is for the resource in
    view, is suspended, and its token has not been triggered. *)
Theorem full_reset_one_request_per_source (options : TimelineOptions.t)
    (p : TimelinePane) (u : URI.t) :
  _uri p = Some u →
  cannotProvideTimeline u = false →
  let p' := loadTimeline true None options p in
  (∀ k, is_Some (_pendingRequests p' !! k)
        ↔ k ∈ timelineSources p ∧ k ∉ _excludedSources p)
  ∧ (∀ k r, _pendingRequests p' !! k = Some r →
       TimelineRequest.source r = k
       ∧ TimelineRequest.uri r = u
       ∧ r ∈ awaiting p'
       ∧ isCancellationRequested r p' = false).
Proof.
  intros Hu Hcan. cbv zeta. rewrite loadTimeline_unfold. cbv zeta.
  rewrite Hu, Hcan. simpl andb. cbv iota.
  set (q := set_pendingRequests ∅ _).
  destruct (loadTimeline_cleared_fields p)
    as (_ & _ & Hpending & _ & _ & Hsources & _).
  fold q in Hpending, Hsources.
  destruct (bool_decide (length _ = 0%nat)) eqn:Hempty.
  - apply bool_decide_eq_true, length_zero_iff_nil in Hempty.
    change (_pendingRequests (refresh (set_loadingMessageTimer (Some u) q)))
      with (_pendingRequests q).
    rewrite Hpending. split.
    + intros k. rewrite lookup_empty. split; [by intros [? ?]|].
      intros [Hk Hex].
      assert (k ∈ filter (λ s, s ∉ _excludedSources p) (timelineSources p)) as Hin
        by (by apply list_elem_of_filter).
      simpl in Hempty. rewrite Hempty in Hin. by apply elem_of_nil in Hin.
    + intros k r. by rewrite lookup_empty.
  - match goal with
    | |- context [foldl _ ?q0 ?l] =>
        destruct (loadTimeline_loop_reset_fresh options InitialPageSize u l q0)
          as ([Hfresh _] & Hdom);
        [| |assert (_pendingRequests q0 = ∅) as Hq0]
    end.
    + assert (∀ q', _pendingRequests q' = ∅ → freshlyIssued u q') as Hvoid.
      { intros q' Hq'. split; intros k; intros; rewrite Hq' in *;
          by rewrite lookup_empty in *. }
      apply Hvoid. by destruct (isLoadMoreCommandItem _).
    + intros s [_ Hs]%list_elem_of_filter. simpl in Hs.
      match goal with
      | |- _ ∈ timelineSources ?q0 =>
          assert (timelineSources q0 = timelineSources p) as ->;
          [destruct (isLoadMoreCommandItem _); exact Hsources | exact Hs]
      end.
    + by destruct (isLoadMoreCommandItem _).
    + split.
      * intros k. rewrite Hdom, Hq0, lookup_empty, list_elem_of_filter. simpl.
        split; [intros [[? ?]|[? ?]]; done | intros [? ?]; by right].
      * intros k r Hr. destruct (Hfresh k r Hr) as (? & ? & ? & Ht).
        split; [done|]. split; [done|]. split; [done|].
        unfold isCancellationRequested. by rewrite Ht.
Qed.

(** ** Resets and the requests that were pending *)

Lemma foldr_delete_lookup {V} (m : gmap string V) (ls : list string) (k : string) :
  k ∉ ls → foldr delete m ls !! k = m !! k.
Proof.
  induction ls as [|s ls IH]; simpl; [done|].
  intros [Hne Hk]%not_elem_of_cons. rewrite lookup_delete_ne by done. auto.
Qed.

(** Triggering the token of the request pending for [k0] leaves the
    entries of the other sources. *)
Lemma cancelTokenSource_own (p : TimelinePane) (k0 : string)
    (r0 : TimelineRequest.t) :
  listenersOwnSource p →
  _pendingRequests p !! k0 = Some r0 →
  let p' := cancelTokenSource (TimelineRequest.tokenSource r0) p in
  triggered p' (TimelineRequest.tokenSource r0)
  ∧ (∀ k, k ≠ k0 → _pendingRequests p' !! k = _pendingRequests p !! k)
  ∧ (∀ k r, _pendingRequests p' !! k = Some r → _pendingRequests p !! k = Some r)
  ∧ listenersOwnSource p'.
Proof.
  intros Hown Hr0. cbv zeta.
  destruct (Hown _ _ Hr0) as (ts0 & Hts0 & Hl0).
  split; [apply cancelTokenSource_cancelled; by eapply lookup_lt_Some|].
  unfold cancelTokenSource. rewrite Hts0.
  destruct (TokenSource.isCancellationRequested ts0); [done|].
  pane_fields.
  assert (∀ k, k ≠ k0 →
            foldr delete (_pendingRequests p) (TokenSource.listeners ts0) !! k
            = _pendingRequests p !! k) as Hother.
  { intros k Hk. apply foldr_delete_lookup. intros Hin. by apply Hl0 in Hin. }
  assert (∀ k r,
            foldr delete (_pendingRequests p) (TokenSource.listeners ts0) !! k
            = Some r → _pendingRequests p !! k = Some r) as Hsub.
  { intros k r. generalize (TokenSource.listeners ts0). intros ls.
    induction ls as [|s ls IH]; simpl; [done|].
    intros [_ Hr]%lookup_delete_Some. auto. }
  split; [exact Hother|]. split; [exact Hsub|].
  intros k r Hr. pane_fields. apply Hsub in Hr.
  destruct (Hown k r Hr) as (ts & Hts & Hl).
  destruct (decide (TimelineRequest.tokenSource r0 = TimelineRequest.tokenSource r))
    as [Heq|Hne].
  - exists (TokenSource.mk true []). rewrite <- Heq. split.
    + apply list_lookup_insert_eq. eapply lookup_lt_Some. exact Hts0.
    + by intros s ?%elem_of_nil.
  - exists ts. by rewrite list_lookup_insert_ne.
Qed.

Lemma cancel_keys_triggered (keys : list string) (p : TimelinePane) (t : nat) :
  triggered p t →
  triggered
    (foldl (λ p k, match _pendingRequests p !! k with
                   | Some r => cancelTokenSource (TimelineRequest.tokenSource r) p
                   | None => p
                   end) p keys) t.
Proof.
  revert p. induction keys as [|k keys IH]; intros p Ht; simpl; [done|].
  apply IH. destruct (_pendingRequests p !! k) as [r|]; [|done].
  by apply cancelTokenSource_fields.
Qed.

Lemma cancel_keys_all (keys : list string) (p : TimelinePane) :
  NoDup keys →
  listenersOwnSource p →
  ∀ k r, k ∈ keys → _pendingRequests p !! k = Some r →
    triggered
      (foldl (λ p k, match _pendingRequests p !! k with
                     | Some r => cancelTokenSource (TimelineRequest.tokenSource r) p
                     | None => p
                     end) p keys)
      (TimelineRequest.tokenSource r).
Proof.
  intros Hnodup. revert p.
  induction Hnodup as [|k0 keys Hnotin Hnodup IH]; intros p Hown k r Hk Hr.
  { by apply elem_of_nil in Hk. }
  simpl. apply elem_of_cons in Hk as [->|Hk].
  - rewrite Hr. apply cancel_keys_triggered.
    by apply (cancelTokenSource_own p k0 r).
  - assert (k ≠ k0) as Hne by (intros ->; done).
    destruct (_pendingRequests p !! k0) as [r0|] eqn:Hr0;
      [|exact (IH p Hown k r Hk Hr)].
    destruct (cancelTokenSource_own p k0 r0 Hown Hr0) as (_ & Hother & _ & Hown').
    apply (IH _ Hown' k r Hk). by rewrite Hother.
Qed.

(** X21: when the token source of every pending request only has listeners
    for the source of that request, a full reset triggers the token of
    every request that was pending. *)
Theorem full_reset_cancels_pending (options : TimelineOptions.t)
    (p : TimelinePane) (k : string) (r : TimelineRequest.t) :
  listenersOwnSource p →
  _pendingRequests p !! k = Some r →
  isCancellationRequested r (loadTimeline true None options p) = true.
Proof.
  intros Hown Hr. apply isCancellationRequested_triggered.
  rewrite loadTimeline_unfold. cbv zeta. simpl andb. cbv iota.
  set (q := set_pendingRequests ∅ _).
  assert (triggered q (TimelineRequest.tokenSource r)) as Hq.
  { subst q. unfold cancelPending.
    change (triggered (set_pendingRequests ∅ ?q') ?t) with (triggered q' t).
    apply (cancel_keys_all
             (map_to_list (_pendingRequests p)).*1
             (set_loadingMessageTimer None (set_cursorsByProvider ∅ (set_items [] p)))
             (NoDup_fst_map_to_list _) Hown k r); [|exact Hr].
    apply list_elem_of_fmap. exists (k, r). split; [done|].
    by apply elem_of_map_to_list. }
  destruct (_uri p) as [u|]; [|done].
  destruct (cannotProvideTimeline u); [done|].
  destruct (bool_decide _); [done|].
  match goal with
  | |- context [foldl _ ?q0 ?l] =>
      apply (loadTimeline_loop_triggered true options InitialPageSize u l q0)
  end.
  by destruct (isLoadMoreCommandItem _).
Qed.

(** [listenersOwnSource] looks at the pending requests and the store. *)
Lemma listenersOwnSource_appended (p p' : TimelinePane) (ts : TokenSource.t) :
  listenersOwnSource p →
  tokenSources p' = tokenSources p ++ [ts] →
  (∀ k r, _pendingRequests p' !! k = Some r → _pendingRequests p !! k = Some r) →
  listenersOwnSource p'.
Proof.
  intros Hown Htokens Hsub k r Hr%Hsub.
  destruct (Hown k r Hr) as (ts' & Hts' & Hl).
  exists ts'. split; [|done]. rewrite Htokens. by apply lookup_app_l_Some.
Qed.

Lemma listenersOwnSource_new (p p' : TimelinePane) (source : string)
    (r : TimelineRequest.t) :
  listenersOwnSource p →
  tokenSources p'
  = alter (λ ts, TokenSource.mk (TokenSource.isCancellationRequested ts)
                   (TokenSource.listeners ts ++ [source]))
      (length (tokenSources p))
      (tokenSources p ++ [TokenSource.mk false []]) →
  _pendingRequests p' = <[source := r]> (_pendingRequests p) →
  TimelineRequest.tokenSource r = length (tokenSources p) →
  listenersOwnSource p'.
Proof.
  intros Hown Htokens Hpending Htoken k r'. rewrite Hpending, Htokens.
  destruct (decide (k = source)) as [->|Hne].
  - rewrite lookup_insert_eq. intros [= <-]. rewrite Htoken.
    rewrite list_lookup_alter_eq, lookup_app_r, Nat.sub_diag by lia. simpl.
    eexists. split; [done|]. simpl. by intros s ->%list_elem_of_singleton.
  - rewrite lookup_insert_ne by done. intros Hr'.
    destruct (Hown k r' Hr') as (ts & Hts & Hl).
    pose proof (lookup_lt_Some _ _ _ Hts).
    exists ts. split; [|done].
    rewrite list_lookup_alter_ne by lia. by apply lookup_app_l_Some.
Qed.

Lemma listenersOwnSource_reused (p p' : TimelinePane) (source : string)
    (r r0 : TimelineRequest.t) :
  listenersOwnSource p →
  tokenSources p' = tokenSources p →
  _pendingRequests p' = <[source := r]> (_pendingRequests p) →
  _pendingRequests p !! source = Some r0 →
  TimelineRequest.tokenSource r = TimelineRequest.tokenSource r0 →
  listenersOwnSource p'.
Proof.
  intros Hown Htokens Hpending Hr0 Htoken k r'. rewrite Hpending, Htokens.
  destruct (decide (k = source)) as [->|Hne].
  - rewrite lookup_insert_eq. intros [= <-]. rewrite Htoken. by apply Hown.
  - rewrite lookup_insert_ne by done. apply Hown.
Qed.

Lemma loadTimeline_source_own (reset : bool) (options : TimelineOptions.t)
    (defaultPageSize : nat) (uri : URI.t) (source : string) (p : TimelinePane) :
  listenersOwnSource p →
  listenersOwnSource (loadTimeline_source reset options defaultPageSize uri source p).
Proof.
  intros Hown.
  unfold loadTimeline_source, getTimeline, newCancellationTokenSource,
    handleRequest_await, onCancellationRequested.
  destruct reset; simpl negb; cbv iota.
  - set (p1 := match _pendingRequests p !! source with
               | Some r => cancelTokenSource (TimelineRequest.tokenSource r) p
               | None => p
               end).
    assert (listenersOwnSource p1) as Hown1.
    { subst p1. destruct (_pendingRequests p !! source) as [r0|] eqn:Hr0; [|done].
      by apply (cancelTokenSource_own p source r0). }
    clearbody p1. cbv zeta. pane_fields.
    destruct (bool_decide (source ∈ timelineSources p1)).
    + by eapply (listenersOwnSource_new p1).
    + by eapply (listenersOwnSource_appended p1).
  - destruct (negb _); [done|].
    destruct (_pendingRequests p !! source) as [r0|] eqn:Hr0; cbv zeta; pane_fields.
    + destruct (bool_decide (source ∈ timelineSources p)); [|done].
      rewrite bool_decide_eq_true_2 by eauto.
      by eapply (listenersOwnSource_reused p _ source _ r0).
    + destruct (bool_decide (source ∈ timelineSources p)).
      * rewrite bool_decide_eq_false_2 by (by intros [? ?]).
        by eapply (listenersOwnSource_new p).
      * by eapply (listenersOwnSource_appended p).
Qed.

Lemma cancel_keys_own (keys : list string) (p : TimelinePane) :
  listenersOwnSource p →
  listenersOwnSource
    (foldl (λ p k, match _pendingRequests p !! k with
                   | Some r => cancelTokenSource (TimelineRequest.tokenSource r) p
                   | None => p
                   end) p keys).
Proof.
  revert p. induction keys as [|k keys IH]; intros p Hown; simpl; [done|].
  apply IH. destruct (_pendingRequests p !! k) as [r|] eqn:Hr; [|done].
  by apply (cancelTokenSource_own p k r).
Qed.

Lemma loadTimeline_own (reset : bool) (sources : option (list string))
    (options : TimelineOptions.t) (p : TimelinePane) :
  listenersOwnSource p → listenersOwnSource (loadTimeline reset sources options p).
Proof.
  intros Hown. rewrite loadTimeline_unfold. cbv zeta.
  set (q := if _ && reset then _ else p).
  assert (listenersOwnSource q) as Hq.
  { subst q. destruct (_ && reset); [|done].
    intros k r. pane_fields. by rewrite lookup_empty. }
  clearbody q.
  destruct (_uri p) as [u|]; [|done].
  destruct (_ && cannotProvideTimeline u); [done|].
  destruct (bool_decide _).
  { destruct reset; by destruct (_ && _). }
  match goal with
  | |- context [foldl _ ?q0 ?l] =>
      assert (listenersOwnSource q0) as Hq0
        by (destruct (isLoadMoreCommandItem _); by destruct (_ && reset));
      generalize dependent q0; generalize l
  end.
  intros l. induction l as [|s l IH]; intros q0 Hq0; [done|].
  simpl. apply IH. by apply loadTimeline_source_own.
Qed.

(** X22: that the token source of every pending request only has
    listeners for the source of that request holds of a pane without
    pending requests and is kept by [loadTimeline] and by [handleRequest],
    whatever their arguments. *)
Theorem listenersOwnSource_kept localeCompare (reset : bool)
    (sources : option (list string)) (options : TimelineOptions.t)
    (request : TimelineRequest.t) (outcome : Outcome) (p : TimelinePane) :
  (_pendingRequests p = ∅ → listenersOwnSource p)
  ∧ (listenersOwnSource p →
     listenersOwnSource (loadTimeline reset sources options p)
     ∧ listenersOwnSource (handleRequest localeCompare request outcome p)).
Proof.
  split; [|intros Hown; split].
  - intros Hnone k r. by rewrite Hnone, lookup_empty.
  - by apply loadTimeline_own.
  - intros k r.
    rewrite (handleRequest_pending localeCompare request outcome p).
    unfold listenersOwnSource in Hown.
    destruct (handleRequest_frame localeCompare request outcome p) as (-> & _).
    intros [_ Hr]%lookup_delete_Some. by apply Hown.
Qed.

(** ** Cursors of the other sources *)

Lemma recordPage_other (source : string) (timeline : Timeline.t)
    (options : TimelineOptions.t) (m : gmap string TimelineCursors.t) (k : string) :
  k ≠ Timeline.source timeline →
  recordPage source timeline options m !! k = m !! k.
Proof.
  intros Hk. unfold recordPage.
  destruct (Timeline.paging timeline) as [pg|]; [|done].
  destruct (m !! Timeline.source timeline) as [c|].
  - destruct (truthy _); by rewrite lookup_insert_ne.
  - by rewrite lookup_insert_ne.
Qed.

(** X23: a completion changes the cursors of no source but the one the
    page names: whatever the request brings, stale or not, the cursors
    kept for any other source are the same afterwards; a request that is
    rejected or brings no timeline changes the cursors of no source. *)
Theorem handleRequest_cursors_of_others localeCompare
    (request : TimelineRequest.t) (outcome : Outcome) (p : TimelinePane)
    (k : string) :
  (∀ timeline, outcome = Resolved (Some timeline) → k ≠ Timeline.source timeline) →
  _cursorsByProvider (handleRequest localeCompare request outcome p) !! k
  = _cursorsByProvider p !! k.
Proof.
  intros Hother.
  destruct outcome as [[timeline|]|];
    [|rewrite handleRequest_returns_early by auto; done..].
  destruct (isCancellationRequested request p) eqn:Hc;
    [rewrite handleRequest_returns_early by auto; done|].
  destruct (uriDiffers request p) eqn:Hu;
    [rewrite handleRequest_returns_early by auto; done|].
  destruct (applyPage localeCompare request (Timeline.items timeline) (_items p)).1
    eqn:Hchanged.
  - destruct (handleRequest_changed localeCompare request timeline p Hc Hu Hchanged)
      as (-> & _).
    apply recordPage_other. by apply Hother.
  - rewrite handleRequest_unchanged_eq by done. cbv zeta.
    destruct (_ && _); apply recordPage_other; by apply Hother.
Qed.

(** ** Instances in the sample run *)

(** More is asked for in the run: the cursors stay and the load-more
    element at the tail is marked busy. *)
Lemma loadTimeline_keeps_list_witness :
  _cursorsByProvider loadingMore = _cursorsByProvider gitArrived
  ∧ (_items loadingMore = _items gitArrived
     ∨ (isLoadMoreCommandItem (last (_items gitArrived)) = true
        ∧ _items loadingMore
          = alter (setThemeIcon (Some "sync~spin"))
              (length (_items gitArrived) - 1)%nat (_items gitArrived))).
Proof.
  apply (loadTimeline_keeps_list false None noOptions gitArrived).
  left. reflexivity.
Defined.

(** The page of [git] for [fileA] arrives after the editor went to
    [fileB]. *)
Lemma resource_switch_discards_completions_witness :
  let p' := activeEditorChanged (Some fileB) opened in
  let p'' := handleRequest baseCompare gitRequest (Resolved (Some gitPage)) p' in
  _uri p' = Some fileB
  ∧ _items p'' = _items p'
  ∧ _cursorsByProvider p'' = _cursorsByProvider p'
  ∧ _message p'' = _message p'.
Proof.
  apply (resource_switch_discards_completions baseCompare (Some fileB) gitRequest
           (Resolved (Some gitPage)) opened).
  intros u [= <-]. vm_compute. discriminate.
Defined.

(** The first page of the run arrives while the list is empty. *)
Lemma handleRequest_refresh_policy_witness :
  _tree historyArrived = Some (_items historyArrived)
  ∧ _message historyArrived
    = (if bool_decide (length (_items historyArrived) = 0%nat)
       then Some noTimelineInfo else None)
  ∧ _loadingMessageTimer historyArrived = None
  ∧ refreshDebouncedArmed historyArrived = refreshDebouncedArmed opened.
Proof.
  apply (handleRequest_refresh_policy baseCompare historyRequest historyPage opened).
  - vm_compute. reflexivity.
  - vm_compute. reflexivity.
  - vm_compute. reflexivity.
  - left. vm_compute. reflexivity.
Defined.

(** An empty last page arrives while more is loaded. *)
Lemma handleRequest_nothing_new_witness :
  _items (handleRequest baseCompare moreRequest (Resolved (Some emptyLastPage))
            loadingMore)
  = _items loadingMore.
Proof.
  apply (handleRequest_nothing_new baseCompare moreRequest emptyLastPage loadingMore).
  - vm_compute. reflexivity.
  - vm_compute. reflexivity.
  - vm_compute. reflexivity.
Defined.

(** The last page of [git] arrives: the entry of [history] stays. *)
Lemma handleRequest_keeps_other_entries_witness :
  old1 ∈ _items (handleRequest baseCompare moreRequest (Resolved (Some lastPage))
                   loadingMore).
Proof.
  apply (handleRequest_keeps_other_entries baseCompare moreRequest
           (Resolved (Some lastPage)) loadingMore old1).
  - assert (_items loadingMore = [old1; old2; busyLoadMore]) as ->
      by (vm_compute; reflexivity).
    apply list_elem_of_here.
  - vm_compute. discriminate.
  - right. vm_compute. reflexivity.
Defined.

(** After the first page of [git], a request in either direction starts
    from [c9]. *)
Lemma requestCursor_of_recorded_page_witness :
  requestCursor (recordPage "git" gitPage noOptions ∅ !! "git") changeOptions
  = Some "c9"
  ∧ requestCursor (recordPage "git" gitPage noOptions ∅ !! "git") noOptions
    = Some "c9".
Proof.
  split.
  - apply (proj1 (requestCursor_of_recorded_page "git" gitPage noOptions
                    changeOptions ∅
                    (Paging.mk (Cursors.mk (Some "c9") (Some "c9")) (Some true))
                    eq_refl eq_refl));
      [left; apply lookup_empty | reflexivity].
  - apply (proj2 (requestCursor_of_recorded_page "git" gitPage noOptions
                    noOptions ∅
                    (Paging.mk (Cursors.mk (Some "c9") (Some "c9")) (Some true))
                    eq_refl eq_refl));
      [left; apply lookup_empty | reflexivity].
Defined.

(** Two commits in order. *)
Lemma sortItems_sorted_fixed_witness :
  sortItems baseCompare [commit1; commit2] = [commit1; commit2].
Proof.
  apply (sortItems_sorted_fixed baseCompare [commit1; commit2]).
  repeat constructor. unfold itemsLe. vm_compute. discriminate.
Defined.

(** [fileA] is opened in the run. *)
Lemma full_reset_one_request_per_source_witness :
  (∀ k, is_Some (_pendingRequests opened !! k)
        ↔ k ∈ timelineSources emptyPane ∧ k ∉ _excludedSources emptyPane)
  ∧ (∀ k r, _pendingRequests opened !! k = Some r →
       TimelineRequest.source r = k
       ∧ TimelineRequest.uri r = fileA
       ∧ r ∈ awaiting opened
       ∧ isCancellationRequested r opened = false).
Proof.
  apply (full_reset_one_request_per_source noOptions emptyPane fileA).
  - reflexivity.
  - vm_compute. reflexivity.
Defined.

(** A reset while the first two requests of the run are awaited. *)
Lemma full_reset_cancels_pending_witness :
  isCancellationRequested gitRequest (loadTimeline true None noOptions opened) = true.
Proof.
  apply (full_reset_cancels_pending noOptions opened "git" gitRequest).
  - apply (loadTimeline_own true None noOptions emptyPane).
    intros k r Hr. vm_compute in Hr. discriminate.
  - vm_compute. reflexivity.
Defined.

(** The page of [git] arrives in the run: no cursors are kept for
    [history], before and after. *)
Lemma handleRequest_cursors_of_others_witness :
  _cursorsByProvider gitArrived !! "history"
  = _cursorsByProvider historyArrived !! "history".
Proof.
  apply (handleRequest_cursors_of_others baseCompare gitRequest
           (Resolved (Some gitPage)) historyArrived "history").
  intros timeline [= <-]. vm_compute. discriminate.
Defined.
